(** * XclockDAC: programmable audio clock generator and its ASoC glue

    A shallow embedding of three kernel sources:
      - drivers/clk/clk-xclockdac.c   (the clock provider, [ClkXclockdac]),
      - sound/soc/codecs/tda1541a.c   (the codec, [Tda1541a]),
      - sound/soc/bcm/xclockdac.c     (the machine driver, [SndRpiXclockdac]),
    followed by the properties of the rate table, the clock operations and
    the probe paths.

    C integers are carried as [Z] with their wrap-around written out.  A
    function whose C body can dereference NULL or walk past the end of the
    rate array returns [option]; [None] stands for that undefined
    behaviour. *)

From Stdlib Require Import ZArith List Bool Lia.
Import ListNotations.
Open Scope Z_scope.

(** ** Machine integers *)

(** The kernel is built both for 32-bit ARM and for arm64; [unsigned long]
    follows the ABI, [unsigned int] is 32 bits on both. *)
Inductive abi : Set := ILP32 | LP64.

Definition BITS_PER_LONG (a : abi) : Z :=
  match a with ILP32 => 32 | LP64 => 64 end.

Definition ULONG_MAX (a : abi) : Z := 2 ^ BITS_PER_LONG a - 1.

Definition to_ulong (a : abi) (z : Z) : Z := z mod 2 ^ BITS_PER_LONG a.

Definition to_long (a : abi) (z : Z) : Z :=
  let u := to_ulong a z in
  if u <? 2 ^ (BITS_PER_LONG a - 1) then u else u - 2 ^ BITS_PER_LONG a.

Definition to_uint (z : Z) : Z := z mod 2 ^ 32.

Definition to_u8 (z : Z) : Z := z mod 2 ^ 8.

(** ** errno values (include/uapi/asm-generic/errno-base.h, linux/errno.h) *)

Definition ENOENT : Z := 2.
Definition EIO : Z := 5.
Definition ENOMEM : Z := 12.
Definition ENODEV : Z := 19.
Definition EINVAL : Z := 22.
Definition EPROBE_DEFER : Z := 517.

(** ** Error pointers (linux/err.h) *)

Inductive ptr_result (A : Type) : Type :=
| PTR (p : A)
| ERR_PTR (err : Z).

Arguments PTR {A} p.
Arguments ERR_PTR {A} err.

Definition IS_ERR {A : Type} (p : ptr_result A) : bool :=
  match p with PTR _ => false | ERR_PTR _ => true end.

Definition PTR_ERR {A : Type} (p : ptr_result A) : Z :=
  match p with PTR _ => 0 | ERR_PTR e => e end.

(** ** The register transport *)

(** Modelled from the spec: the regmap/I2C transport is not part of the
    sources at hand.  It is the spec's register I/O collaborator,
    [read(address) -> byte | IoError] and [write(address, byte) -> () |
    IoError], over a single 8-bit register.  [device_reg] is what the chip
    holds; [faults] scripts the outcome of the coming transfers, one code
    per transfer (negative errno: the transfer fails and the chip is not
    touched; anything else, or an exhausted script: it succeeds). *)
Record regmap : Type := mk_regmap {
  device_reg : Z;
  faults : list Z
}.

Definition next_fault (m : regmap) : Z * list Z :=
  match faults m with
  | [] => (0, [])
  | r :: rest => (r, rest)
  end.

Definition regmap_write (m : regmap) (reg val : Z) : Z * regmap :=
  let '(r, rest) := next_fault m in
  if r <? 0 then (r, mk_regmap (device_reg m) rest)
  else (0, mk_regmap (to_u8 val) rest).

Definition regmap_read (m : regmap) (reg : Z) : Z * Z * regmap :=
  let '(r, rest) := next_fault m in
  if r <? 0 then (r, 0, mk_regmap (device_reg m) rest)
  else (0, to_u8 (device_reg m), mk_regmap (device_reg m) rest).

(** ** drivers/clk/clk-xclockdac.c *)

Module ClkXclockdac.

Definition DEFAULT_RATE : Z := 44100.
Definition SMBUS_DAC_SET : Z := 0x2F.

Record xclockdac_rate : Type := mk_rate {
  out : Z;        (* unsigned long *)
  reg_value : Z   (* uint8_t *)
}.

(** The array with its zeroed sentinel. *)
Definition xclockdac_rates : list xclockdac_rate :=
  [ mk_rate 11025 0x04  (* 0b00000100 *); mk_rate 22050 0x0C  (* 0b00001100 *);
    mk_rate 44100 0x03  (* 0b00000011 *); mk_rate 48000 0x0B  (* 0b00001011 *);
    mk_rate 88200 0x02  (* 0b00000010 *); mk_rate 96000 0x0A  (* 0b00001010 *);
    mk_rate 176400 0x01 (* 0b00000001 *); mk_rate 192000 0x09 (* 0b00001001 *);
    mk_rate 0 0         (* sentinel *) ].

(** The entries a scan [for (e = tbl; e->out != 0; e++)] visits. *)
Fixpoint entries (tbl : list xclockdac_rate) : list xclockdac_rate :=
  match tbl with
  | [] => []
  | e :: rest => if out e =? 0 then [] else e :: entries rest
  end.

Definition rate_table : list xclockdac_rate := entries xclockdac_rates.

Definition supported_rates : list Z := map out rate_table.

(** [struct clk_xclockdac_drvdata]: the regmap handle and the cached
    register value ([unsigned int reg_value], named [shadow] here because
    the rate entry already has a field [reg_value]). *)
Record clk_xclockdac_drvdata : Type := mk_drvdata {
  bus : regmap;
  shadow : Z
}.

Definition xclockdac_write_reg (drvdata : clk_xclockdac_drvdata) (value : Z)
  : Z * clk_xclockdac_drvdata :=
  let value := to_u8 value in                  (* uint8_t parameter *)
  let cached := value in                       (* drvdata->reg_value = value *)
  let '(ret, m) := regmap_write (bus drvdata) SMBUS_DAC_SET value in
  (if ret <? 0 then ret else 0, mk_drvdata m cached).

(** The scan of [xclockdac_set_rate]: the entry the pointer rests on when
    the loop is left, by [break] or at the sentinel. *)
Fixpoint set_rate_scan (entry : list xclockdac_rate) (rate : Z)
  : option xclockdac_rate :=
  match entry with
  | [] => None
  | e :: rest =>
      if out e =? 0 then Some e
      else if out e =? rate then Some e
      else set_rate_scan rest rate
  end.

Definition xclockdac_set_rate (drvdata : clk_xclockdac_drvdata) (rate : Z)
  : option (Z * clk_xclockdac_drvdata) :=
  match set_rate_scan xclockdac_rates rate with
  | None => None
  | Some entry =>
      if out entry =? 0 then Some (- EINVAL, drvdata)
      else Some (xclockdac_write_reg drvdata (reg_value entry))
  end.

Fixpoint recalc_rate_scan (entry : list xclockdac_rate) (val : Z)
  : option Z :=
  match entry with
  | [] => None
  | e :: rest =>
      if out e =? 0 then Some 0
      else if val =? reg_value e then Some (out e)
      else recalc_rate_scan rest val
  end.

Definition xclockdac_recalc_rate (drvdata : clk_xclockdac_drvdata)
  : option Z :=
  let val := to_u8 (shadow drvdata) in
  recalc_rate_scan xclockdac_rates val.

Section RoundRate.
Variable a : abi.

Fixpoint round_rate_scan (curr : list xclockdac_rate)
         (prev : option xclockdac_rate) (rate : Z) : option Z :=
  match curr with
  | [] => None
  | c :: rest =>
      if out c =? 0 then
        (* loop left at the sentinel: return prev->out *)
        match prev with
        | None => None
        | Some p => Some (to_long a (out p))
        end
      else if out c =? rate then Some (to_long a rate)
      else if out c >? rate then
        match prev with
        | None => Some (to_long a (out c))
        | Some p =>
            let mid :=
              to_uint (to_ulong a (out p + to_ulong a (out c - out p) / 2)) in
            Some (to_long a (if mid >? rate then out p else out c))
        end
      else round_rate_scan rest (Some c) rate
  end.

Definition xclockdac_round_rate (rate : Z) : option Z :=
  round_rate_scan xclockdac_rates None rate.

End RoundRate.

(** [struct clk_ops], the provider interface of the common clock
    framework, restricted to the three callbacks this driver fills in.
    The arguments the callbacks never read ([parent_rate] everywhere, [hw]
    in [round_rate]) are left out. *)
Record clk_ops (hw : Type) : Type := mk_clk_ops {
  recalc_rate : hw -> option Z;
  round_rate : abi -> Z -> option Z;
  set_rate : hw -> Z -> option (Z * hw)
}.

Arguments recalc_rate {hw} _ _.
Arguments round_rate {hw} _ _ _.
Arguments set_rate {hw} _ _ _.

Definition clk_xclockdac_rate_ops : clk_ops clk_xclockdac_drvdata :=
  {| recalc_rate := xclockdac_recalc_rate;
     round_rate := xclockdac_round_rate;
     set_rate := xclockdac_set_rate |}.

(** What the probe consumes from the kernel: allocation, clock lookup,
    regmap creation, clock registration, provider registration, and the
    consumer call [clk_set_rate] on the clock just registered.  Each field
    is the outcome of the call of the same name. *)
Record i2c_host : Type := mk_i2c_host {
  devm_kzalloc : bool;
  devm_clk_get : ptr_result unit;
  devm_regmap_init_i2c : ptr_result regmap;
  devm_clk_register : ptr_result unit;
  of_clk_add_provider : Z;
  clk_set_rate :
    clk_xclockdac_drvdata -> Z -> option (Z * clk_xclockdac_drvdata)
}.

(** Modelled from the spec: the common clock framework is not part of the
    sources at hand.  The spec's commit path hands the requested rate to
    the device's [set_rate] and surfaces its result; this is that
    dispatch through the driver's [clk_ops]. *)
Definition clk_set_rate_ops (ops : clk_ops clk_xclockdac_drvdata)
  (hw : clk_xclockdac_drvdata) (rate : Z)
  : option (Z * clk_xclockdac_drvdata) :=
  set_rate ops hw rate.

(** [xclockdac_i2c_probe]: the return code together with the driver data
    as the probe leaves it ([None] before the allocation and the regmap
    exist). *)
Definition xclockdac_i2c_probe (h : i2c_host)
  : option (Z * option clk_xclockdac_drvdata) :=
  if negb (devm_kzalloc h) then Some (- ENOMEM, None)
  else if IS_ERR (devm_clk_get h) then Some (PTR_ERR (devm_clk_get h), None)
  else
    match devm_regmap_init_i2c h with
    | ERR_PTR e => Some (e, None)
    | PTR m =>
        let '(ret, val, m) := regmap_read m SMBUS_DAC_SET in
        if ret <? 0 then Some (ret, Some (mk_drvdata m 0))
        else
          let drvdata := mk_drvdata m val in
          if IS_ERR (devm_clk_register h)
          then Some (PTR_ERR (devm_clk_register h), Some drvdata)
          else
            let ret := of_clk_add_provider h in
            if negb (ret =? 0) then Some (ret, Some drvdata)
            else
              match clk_set_rate h drvdata DEFAULT_RATE with
              | None => None
              | Some (ret, drvdata) =>
                  if negb (ret =? 0) then Some (- EINVAL, Some drvdata)
                  else Some (ret, Some drvdata)
              end
    end.

(** Modelled from the spec: the driver core that calls the probe is not
    part of the sources at hand.  A device is attached exactly when its
    probe returned 0; any other code leaves it detached. *)
Definition attached {A : Type} (r : option (Z * A)) : bool :=
  match r with
  | Some (ret, _) => ret =? 0
  | None => false
  end.

End ClkXclockdac.

(** ** The PCM negotiation layer *)

Inductive snd_pcm_hw_param : Set :=
| SNDRV_PCM_HW_PARAM_FORMAT
| SNDRV_PCM_HW_PARAM_CHANNELS
| SNDRV_PCM_HW_PARAM_RATE.

Definition snd_pcm_hw_param_eqb (x y : snd_pcm_hw_param) : bool :=
  match x, y with
  | SNDRV_PCM_HW_PARAM_FORMAT, SNDRV_PCM_HW_PARAM_FORMAT => true
  | SNDRV_PCM_HW_PARAM_CHANNELS, SNDRV_PCM_HW_PARAM_CHANNELS => true
  | SNDRV_PCM_HW_PARAM_RATE, SNDRV_PCM_HW_PARAM_RATE => true
  | _, _ => false
  end.

(** [struct snd_pcm_hw_constraint_list]: an array and its length. *)
Record snd_pcm_hw_constraint_list_t : Type := mk_constraint_list {
  list_ : list Z;
  count : nat
}.

(** Modelled from the spec: the ALSA core is not part of the sources at
    hand.  It is the spec's audio negotiation collaborator, which accepts
    a constraint "restrict acceptable rates to set {...}".  A runtime
    carries the list constraints installed so far; a value of a parameter
    is negotiable when every list installed for that parameter holds it. *)
Record snd_pcm_runtime : Type := mk_runtime {
  hw_constraints : list (snd_pcm_hw_param * snd_pcm_hw_constraint_list_t)
}.

Definition snd_pcm_hw_constraint_list (runtime : snd_pcm_runtime) (cond : Z)
  (var : snd_pcm_hw_param) (l : snd_pcm_hw_constraint_list_t)
  : Z * snd_pcm_runtime :=
  (0, mk_runtime ((var, l) :: hw_constraints runtime)).

Definition list_holds (l : snd_pcm_hw_constraint_list_t) (v : Z) : bool :=
  existsb (Z.eqb v) (firstn (count l) (list_ l)).

Definition negotiable (runtime : snd_pcm_runtime) (var : snd_pcm_hw_param)
  (v : Z) : bool :=
  forallb (fun c => if snd_pcm_hw_param_eqb (fst c) var
                    then list_holds (snd c) v else true)
          (hw_constraints runtime).

(** The values [params_rate] and [params_width] read out of a
    [struct snd_pcm_hw_params]. *)
Record snd_pcm_hw_params : Type := mk_hw_params {
  params_rate : Z;    (* unsigned int *)
  params_width : Z    (* int *)
}.

(** ** sound/soc/codecs/tda1541a.c *)

Module Tda1541a.

Definition tda1541a_dai_rates : list Z :=
  [11025; 22050; 44100; 48000; 88200; 96000; 176400; 192000].

Definition dai_constraints : snd_pcm_hw_constraint_list_t :=
  {| count := length tda1541a_dai_rates;      (* ARRAY_SIZE *)
     list_ := tda1541a_dai_rates |}.

Record tda1541a_private : Type := mk_private {
  rate : Z
}.

Definition tda1541a_hw_params (params : snd_pcm_hw_params)
  (priv : tda1541a_private) : Z * tda1541a_private :=
  let priv := mk_private (params_rate params) in   (* priv->rate = ... *)
  if params_width params =? 16 then (0, priv)
  else (- EINVAL, priv).

Definition tda1541a_startup (runtime : snd_pcm_runtime)
  : Z * snd_pcm_runtime :=
  snd_pcm_hw_constraint_list runtime 0 SNDRV_PCM_HW_PARAM_RATE
                             dai_constraints.

(** Sample formats (include/uapi/sound/asound.h) and their bit masks. *)
Definition SNDRV_PCM_FORMAT_S16_LE : Z := 2.
Definition SNDRV_PCM_FORMAT_S24_LE : Z := 6.
Definition SNDRV_PCM_FORMAT_S32_LE : Z := 10.

Definition SNDRV_PCM_FMTBIT_S16_LE : Z := Z.shiftl 1 SNDRV_PCM_FORMAT_S16_LE.

Definition TDA1541A_FORMATS : Z := SNDRV_PCM_FMTBIT_S16_LE.

(** The playback stream of [tda1541a_dai]. *)
Record snd_soc_pcm_stream : Type := mk_stream {
  channels_min : Z;
  channels_max : Z;
  rate_min : Z;
  rate_max : Z;
  formats : Z
}.

Definition tda1541a_dai_playback : snd_soc_pcm_stream :=
  {| channels_min := 2;
     channels_max := 2;
     rate_min := 10000;
     rate_max := 200000;
     formats := TDA1541A_FORMATS |}.

End Tda1541a.

(** ** sound/soc/bcm/xclockdac.c *)

Module SndRpiXclockdac.

Definition xclockdac_rates : list Z :=
  [11025; 22050; 44100; 48000; 88200; 96000; 176400; 192000].

Definition DEFAULT_RATE : Z := 44100.

Definition xclockdac_constraints : snd_pcm_hw_constraint_list_t :=
  {| list_ := xclockdac_rates;
     count := length xclockdac_rates |}.      (* ARRAY_SIZE *)

Definition snd_rpi_xclockdac_startup (runtime : snd_pcm_runtime)
  : Z * snd_pcm_runtime :=
  let '(_, runtime) :=
    snd_pcm_hw_constraint_list runtime 0 SNDRV_PCM_HW_PARAM_RATE
                               xclockdac_constraints in
  (0, runtime).

Definition to_int (z : Z) : Z :=
  let u := z mod 2 ^ 32 in
  if u <? 2 ^ 31 then u else u - 2 ^ 32.

Section Machine.
Variable a : abi.
(** The clock behind a [struct clk *] handle. *)
Variable clk : Type.

(** [struct xclockdac_drv_data], the file's single static instance, and
    the device-tree links the probe fills in on the DAI link. *)
Record xclockdac_drv_data : Type := mk_drv_data {
  sclk : ptr_result clk;
  cpus_of_node : option Z;
  platforms_of_node : option Z
}.

(** What the probe consumes from the kernel: the device-tree node of the
    platform device, the "i2s-controller" phandle lookup, card
    registration, clock lookup, and the consumer call [clk_set_rate]. *)
Record platform_host : Type := mk_platform_host {
  of_node : bool;
  of_parse_phandle : option Z;
  devm_snd_soc_register_card : Z;
  devm_clk_get : ptr_result clk;
  clk_set_rate : clk -> Z -> option (Z * clk)
}.

Definition snd_rpi_xclockdac_set_sclk (h : platform_host)
  (drvdata : xclockdac_drv_data) (sample_rate : Z)
  : option xclockdac_drv_data :=
  match sclk drvdata with
  | ERR_PTR _ => Some drvdata
  | PTR c =>
      match clk_set_rate h c (to_ulong a sample_rate) with
      | None => None
      | Some (_, c) =>
          Some (mk_drv_data (PTR c) (cpus_of_node drvdata)
                            (platforms_of_node drvdata))
      end
  end.

Definition snd_rpi_xclockdac_hw_params (h : platform_host)
  (drvdata : xclockdac_drv_data) (params : snd_pcm_hw_params)
  : option (Z * xclockdac_drv_data) :=
  let ret := 0 in
  match snd_rpi_xclockdac_set_sclk h drvdata (to_int (params_rate params)) with
  | None => None
  | Some drvdata => Some (ret, drvdata)
  end.

(** The device-tree block at the head of the probe: [inl] is an early
    return, [inr] the driver data to go on with. *)
Definition probe_of_node (h : platform_host) (drvdata : xclockdac_drv_data)
  : Z + xclockdac_drv_data :=
  if of_node h then
    match of_parse_phandle h with
    | Some i2s_node =>
        inr (mk_drv_data (sclk drvdata) (Some i2s_node) (Some i2s_node))
    | None => inl (- EPROBE_DEFER)
    end
  else inr drvdata.

Definition snd_rpi_xclockdac_probe (h : platform_host)
  (drvdata : xclockdac_drv_data) : option (Z * xclockdac_drv_data) :=
  match probe_of_node h drvdata with
  | inl e => Some (e, drvdata)
  | inr drvdata =>
      let ret := devm_snd_soc_register_card h in
      if negb (ret =? 0) && negb (ret =? - EPROBE_DEFER)
      then Some (ret, drvdata)
      else if ret =? - EPROBE_DEFER then Some (ret, drvdata)
      else if negb (of_node h) then Some (- ENODEV, drvdata)
      else
        match devm_clk_get h with
        | ERR_PTR _ =>
            Some (- ENODEV,
                  mk_drv_data (ERR_PTR (- ENOENT)) (cpus_of_node drvdata)
                              (platforms_of_node drvdata))
        | PTR c =>
            match clk_set_rate h c DEFAULT_RATE with
            | None => None
            | Some (_, c) =>
                Some (ret,
                      mk_drv_data (PTR c) (cpus_of_node drvdata)
                                  (platforms_of_node drvdata))
            end
        end
  end.

End Machine.

Arguments sclk {clk} _.
Arguments cpus_of_node {clk} _.
Arguments platforms_of_node {clk} _.
Arguments mk_drv_data {clk} _ _ _.
Arguments of_node {clk} _.
Arguments of_parse_phandle {clk} _.
Arguments devm_snd_soc_register_card {clk} _.
Arguments devm_clk_get {clk} _.
Arguments clk_set_rate {clk} _ _ _.
Arguments mk_platform_host {clk} _ _ _ _ _.
Arguments snd_rpi_xclockdac_set_sclk a {clk} _ _ _.
Arguments snd_rpi_xclockdac_hw_params a {clk} _ _ _.
Arguments probe_of_node {clk} _ _.
Arguments snd_rpi_xclockdac_probe {clk} _ _.

End SndRpiXclockdac.

(** ** Concrete devices and hosts used in the examples below *)

Module Fixtures.
Import ClkXclockdac.

(** A clock whose register and cache hold the code of 44100 Hz and whose
    next bus transfer fails with [-EIO]. *)
Definition clk_44100_next_fails : clk_xclockdac_drvdata :=
  mk_drvdata (mk_regmap 0x03 [- EIO]) 0x03.

(** A clock at 44100 Hz on a healthy bus. *)
Definition clk_44100 : clk_xclockdac_drvdata :=
  mk_drvdata (mk_regmap 0x03 []) 0x03.

(** A clock whose cache holds a code outside the table. *)
Definition clk_foreign : clk_xclockdac_drvdata :=
  mk_drvdata (mk_regmap 0x00 []) 0x00.

(** An I2C host on which everything succeeds except the second bus
    transfer: the read-back of the probe goes through (the chip holds the
    code of 48000 Hz), the write of the default rate fails with [-EIO]. *)
Definition i2c_host_write_fails : i2c_host :=
  {| devm_kzalloc := true;
     devm_clk_get := PTR tt;
     devm_regmap_init_i2c := PTR (mk_regmap 0x0B [0; - EIO]);
     devm_clk_register := PTR tt;
     of_clk_add_provider := 0;
     clk_set_rate := clk_set_rate_ops clk_xclockdac_rate_ops |}.

(** A platform host whose device tree names the I2S controller and whose
    card registers, but whose clock provider has not been probed yet:
    the clock lookup answers [-EPROBE_DEFER]. *)
Definition platform_host_clk_not_ready
  : SndRpiXclockdac.platform_host clk_xclockdac_drvdata :=
  SndRpiXclockdac.mk_platform_host
    true (Some 1) 0 (ERR_PTR (- EPROBE_DEFER))
    (clk_set_rate_ops clk_xclockdac_rate_ops).

(** A platform host whose device tree lacks the "i2s-controller" phandle. *)
Definition platform_host_no_i2s
  : SndRpiXclockdac.platform_host clk_xclockdac_drvdata :=
  SndRpiXclockdac.mk_platform_host
    true None 0 (PTR clk_44100)
    (clk_set_rate_ops clk_xclockdac_rate_ops).

(** The machine driver's static data before its probe ran. *)
Definition drv_data_zero : SndRpiXclockdac.xclockdac_drv_data clk_xclockdac_drvdata :=
  SndRpiXclockdac.mk_drv_data (ERR_PTR 0) None None.

End Fixtures.

(** ** Well-formed error pointers *)

(** [IS_ERR] holds of the top [MAX_ERRNO] addresses only, so an error
    pointer carries an errno between [-MAX_ERRNO] and [-1]. *)
Definition MAX_ERRNO : Z := 4095.

Definition err_ptr_ok {A : Type} (p : ptr_result A) : Prop :=
  match p with
  | PTR _ => True
  | ERR_PTR e => - MAX_ERRNO <= e < 0
  end.

(** ** Sequences of commits and the rounding thresholds *)

Module Sequences.
Import ClkXclockdac.

(** A consumer that calls [xclockdac_set_rate] once per requested rate, in
    order, whatever each call answers. *)
Fixpoint commit_all (d : clk_xclockdac_drvdata) (rates : list Z)
  : option clk_xclockdac_drvdata :=
  match rates with
  | [] => Some d
  | r :: rest =>
      match xclockdac_set_rate d r with
      | None => None
      | Some (_, d) => commit_all d rest
      end
  end.

Definition is_supported (r : Z) : bool := existsb (Z.eqb r) supported_rates.

(** The rate a read-back is expected to report after such a sequence,
    starting from the report [cur]: the last requested rate that is a
    frequency of the table. *)
Fixpoint reported_after (rates : list Z) (cur : option Z) : option Z :=
  match rates with
  | [] => cur
  | r :: rest => reported_after rest (if is_supported r then Some r else cur)
  end.

(** The decision table of [xclockdac_round_rate]: each bound is the
    midpoint [prev + (curr - prev) / 2] of two neighbouring entries. *)
Definition round_rate_thresholds (rate : Z) : Z :=
  if rate <? 16537 then 11025
  else if rate <? 33075 then 22050
  else if rate <? 46050 then 44100
  else if rate <? 68100 then 48000
  else if rate <? 92100 then 88200
  else if rate <? 136200 then 96000
  else if rate <? 184200 then 176400
  else 192000.

End Sequences.

(** ** More concrete hosts *)

Module Hosts.
Import ClkXclockdac.

(** An I2C host on which every step succeeds; the chip holds the code of
    48000 Hz when the probe starts. *)
Definition i2c_host_healthy : i2c_host :=
  {| devm_kzalloc := true;
     devm_clk_get := PTR tt;
     devm_regmap_init_i2c := PTR (mk_regmap 0x0B []);
     devm_clk_register := PTR tt;
     of_clk_add_provider := 0;
     clk_set_rate := clk_set_rate_ops clk_xclockdac_rate_ops |}.

(** A platform host on which every step succeeds; its clock is the
    provider above after its probe, on a bus whose next transfer fails. *)
Definition platform_host_healthy
  : SndRpiXclockdac.platform_host clk_xclockdac_drvdata :=
  SndRpiXclockdac.mk_platform_host
    true (Some 1) 0 (PTR (mk_drvdata (mk_regmap 0x03 [- EIO]) 0x03))
    (clk_set_rate_ops clk_xclockdac_rate_ops).

(** A platform device that was not instantiated from the device tree. *)
Definition platform_host_no_of_node
  : SndRpiXclockdac.platform_host clk_xclockdac_drvdata :=
  SndRpiXclockdac.mk_platform_host
    false None 0 (PTR (mk_drvdata (mk_regmap 0x03 []) 0x03))
    (clk_set_rate_ops clk_xclockdac_rate_ops).

(** A platform host whose clock lookup fails for good. *)
Definition platform_host_no_clk
  : SndRpiXclockdac.platform_host clk_xclockdac_drvdata :=
  SndRpiXclockdac.mk_platform_host
    true (Some 1) 0 (ERR_PTR (- ENOENT))
    (clk_set_rate_ops clk_xclockdac_rate_ops).

End Hosts.

(** ** Replacing the framework call of an I2C host *)

Definition with_clk_set_rate (h : ClkXclockdac.i2c_host)
  (f : ClkXclockdac.clk_xclockdac_drvdata -> Z ->
       option (Z * ClkXclockdac.clk_xclockdac_drvdata))
  : ClkXclockdac.i2c_host :=
  {| ClkXclockdac.devm_kzalloc := ClkXclockdac.devm_kzalloc h;
     ClkXclockdac.devm_clk_get := ClkXclockdac.devm_clk_get h;
     ClkXclockdac.devm_regmap_init_i2c := ClkXclockdac.devm_regmap_init_i2c h;
     ClkXclockdac.devm_clk_register := ClkXclockdac.devm_clk_register h;
     ClkXclockdac.of_clk_add_provider := ClkXclockdac.of_clk_add_provider h;
     ClkXclockdac.clk_set_rate := f |}.

(** An I2C host whose very first bus transfer, the read-back, fails. *)
Definition i2c_host_read_fails : ClkXclockdac.i2c_host :=
  {| ClkXclockdac.devm_kzalloc := true;
     ClkXclockdac.devm_clk_get := PTR tt;
     ClkXclockdac.devm_regmap_init_i2c := PTR (mk_regmap 0x0B [- EIO]);
     ClkXclockdac.devm_clk_register := PTR tt;
     ClkXclockdac.of_clk_add_provider := 0;
     ClkXclockdac.clk_set_rate :=
       ClkXclockdac.clk_set_rate_ops ClkXclockdac.clk_xclockdac_rate_ops |}.

(** * Properties *)

Import ClkXclockdac.

(** ** Machine integers *)

Lemma two_pow_long_pos (a : abi) : 2 ^ 32 <= 2 ^ BITS_PER_LONG a.
Proof. destruct a; simpl BITS_PER_LONG; lia. Qed.

Lemma to_ulong_small (a : abi) (z : Z) :
  0 <= z < 2 ^ 32 -> to_ulong a z = z.
Proof.
  intros Hz. unfold to_ulong. apply Z.mod_small.
  pose proof (two_pow_long_pos a). lia.
Qed.

Lemma to_long_small (a : abi) (z : Z) :
  0 <= z < 2 ^ 31 -> to_long a z = z.
Proof.
  intros Hz. unfold to_long.
  rewrite to_ulong_small by lia.
  destruct a; cbn [BITS_PER_LONG];
    [change (32 - 1) with 31 | change (64 - 1) with 63];
    match goal with
    | |- context [?x <? ?y] => destruct (Z.ltb_spec x y)
    end; lia.
Qed.

Lemma to_uint_small (z : Z) : 0 <= z < 2 ^ 32 -> to_uint z = z.
Proof. intros Hz. unfold to_uint. now apply Z.mod_small. Qed.

Lemma to_u8_small (z : Z) : 0 <= z < 2 ^ 8 -> to_u8 z = z.
Proof. intros Hz. unfold to_u8. now apply Z.mod_small. Qed.

(** ** The rate table *)

Lemma rate_table_unfold :
  rate_table =
  [ mk_rate 11025 4; mk_rate 22050 12; mk_rate 44100 3; mk_rate 48000 11;
    mk_rate 88200 2; mk_rate 96000 10; mk_rate 176400 1; mk_rate 192000 9 ].
Proof. reflexivity. Qed.

Lemma xclockdac_rates_split :
  xclockdac_rates = rate_table ++ [mk_rate 0 0].
Proof. reflexivity. Qed.

Lemma supported_rates_unfold :
  supported_rates =
  [11025; 22050; 44100; 48000; 88200; 96000; 176400; 192000].
Proof. reflexivity. Qed.

(** Every entry has a frequency that fits a signed 32-bit value and a code
    that fits a byte. *)
Lemma rate_table_bounds :
  Forall (fun e => 0 < out e < 2 ^ 31 /\ 0 <= reg_value e < 2 ^ 8) rate_table.
Proof. rewrite rate_table_unfold. repeat constructor; simpl; lia. Qed.

(** Case analysis on membership in the table. *)
Ltac table_cases H :=
  rewrite rate_table_unfold in H; simpl in H;
  repeat (destruct H as [H | H]; [subst | ]); [ .. | contradiction H].

Lemma entries_nonzero (tbl : list xclockdac_rate) :
  Forall (fun e => out e <> 0) (entries tbl).
Proof.
  induction tbl as [| e rest IH]; simpl; [constructor |].
  destruct (Z.eqb_spec (out e) 0); constructor; assumption.
Qed.

(** ** [xclockdac_set_rate] *)

(** A scan that meets no matching entry stops on an entry whose [out] is
    zero, provided the array has one. *)
Lemma set_rate_scan_miss (tbl : list xclockdac_rate) (rate : Z) :
  ~ In rate (map out (entries tbl)) ->
  forall e, set_rate_scan tbl rate = Some e -> out e = 0.
Proof.
  induction tbl as [| x rest IH]; simpl; intros Hn e He; [discriminate |].
  destruct (Z.eqb_spec (out x) 0) as [Hz | Hz].
  - injection He as <-. exact Hz.
  - simpl in Hn. destruct (Z.eqb_spec (out x) rate) as [Hr | Hr].
    + exfalso. apply Hn. now left.
    + apply IH; [| exact He]. intros Hin. apply Hn. now right.
Qed.

Lemma set_rate_scan_terminated (tbl : list xclockdac_rate) (rate : Z) :
  existsb (fun e => out e =? 0) tbl = true ->
  exists e, set_rate_scan tbl rate = Some e.
Proof.
  induction tbl as [| x rest IH]; simpl; intros Ht; [discriminate |].
  destruct (out x =? 0); [now exists x |].
  destruct (out x =? rate); [now exists x |].
  now apply IH.
Qed.

Lemma set_rate_scan_hit (e : xclockdac_rate) :
  In e rate_table -> set_rate_scan xclockdac_rates (out e) = Some e.
Proof. intros H. table_cases H; reflexivity. Qed.

Lemma set_rate_exact (d : clk_xclockdac_drvdata) (e : xclockdac_rate) :
  In e rate_table ->
  xclockdac_set_rate d (out e) = Some (xclockdac_write_reg d (reg_value e)).
Proof.
  intros H. unfold xclockdac_set_rate. rewrite (set_rate_scan_hit e H).
  table_cases H; reflexivity.
Qed.

(** ** [xclockdac_recalc_rate] *)

Lemma recalc_rate_scan_miss (tbl : list xclockdac_rate) (val : Z) :
  existsb (fun e => out e =? 0) tbl = true ->
  ~ In val (map reg_value (entries tbl)) ->
  recalc_rate_scan tbl val = Some 0.
Proof.
  induction tbl as [| x rest IH]; simpl; intros Ht Hn; [discriminate |].
  destruct (Z.eqb_spec (out x) 0) as [Hz | Hz]; [reflexivity |].
  simpl in Hn, Ht. destruct (Z.eqb_spec val (reg_value x)) as [Hv | Hv].
  - exfalso. apply Hn. left. now symmetry.
  - apply IH; [exact Ht |]. intros Hin. apply Hn. now right.
Qed.

Lemma recalc_rate_scan_hit (e : xclockdac_rate) :
  In e rate_table ->
  recalc_rate_scan xclockdac_rates (reg_value e) = Some (out e).
Proof. intros H. table_cases H; reflexivity. Qed.

Lemma recalc_after_write (d : clk_xclockdac_drvdata) (e : xclockdac_rate) :
  In e rate_table ->
  xclockdac_recalc_rate (snd (xclockdac_write_reg d (reg_value e)))
  = Some (out e).
Proof.
  intros H. unfold xclockdac_write_reg, xclockdac_recalc_rate.
  destruct (regmap_write _ _ _) as [ret m]. simpl.
  table_cases H; reflexivity.
Qed.

(** ** [xclockdac_round_rate] *)

Section RoundRateFacts.
Variable a : abi.

(** Entries below the request only move [prev] along. *)
Lemma round_rate_scan_below (l : list xclockdac_rate) :
  forall (p : xclockdac_rate) (rest : list xclockdac_rate)
         (prev : option xclockdac_rate) (rate : Z),
    Forall (fun e => 0 < out e < rate) (l ++ [p]) ->
    round_rate_scan a (l ++ p :: rest) prev rate
    = round_rate_scan a rest (Some p) rate.
Proof.
  induction l as [| x l IH]; intros p rest prev rate HF; simpl in *.
  - apply Forall_inv in HF.
    destruct (Z.eqb_spec (out p) 0); [lia |].
    destruct (Z.eqb_spec (out p) rate); [lia |].
    destruct (Z.gtb_spec (out p) rate); [lia | reflexivity].
  - pose proof (Forall_inv HF) as Hx. cbv beta in Hx.
    apply Forall_inv_tail in HF.
    destruct (Z.eqb_spec (out x) 0); [lia |].
    destruct (Z.eqb_spec (out x) rate); [lia |].
    destruct (Z.gtb_spec (out x) rate); [lia |].
    now apply IH.
Qed.

(** The midpoint of two table-sized frequencies is computed without
    wrap-around. *)
Lemma mid_exact (p c : Z) :
  0 < p -> p < c -> c < 2 ^ 31 ->
  to_uint (to_ulong a (p + to_ulong a (c - p) / 2)) = p + (c - p) / 2.
Proof.
  intros Hp Hpc Hc.
  assert (0 <= (c - p) / 2 < c - p).
  { split; [apply Z.div_pos; lia | apply Z.div_lt; lia]. }
  rewrite (to_ulong_small a (c - p)) by lia.
  rewrite to_ulong_small by lia.
  apply to_uint_small. lia.
Qed.

(** A first entry above the request is where the scan clamps. *)
Lemma round_rate_scan_first (c : xclockdac_rate)
      (rest : list xclockdac_rate) (rate : Z) :
  0 < out c < 2 ^ 31 -> rate < out c ->
  round_rate_scan a (c :: rest) None rate = Some (out c).
Proof.
  intros Hc Hr. simpl.
  destruct (Z.eqb_spec (out c) 0); [lia |].
  destruct (Z.eqb_spec (out c) rate); [lia |].
  destruct (Z.gtb_spec (out c) rate); [| lia].
  now rewrite to_long_small by lia.
Qed.

(** With [prev] known and the next entry above the request, the scan
    decides by the midpoint. *)
Lemma round_rate_scan_between (p c : xclockdac_rate)
      (rest : list xclockdac_rate) (rate : Z) :
  0 < out p < rate -> rate < out c -> out c < 2 ^ 31 ->
  round_rate_scan a (c :: rest) (Some p) rate
  = Some (if out p + (out c - out p) / 2 >? rate then out p else out c).
Proof.
  intros Hp Hc Hb. simpl.
  destruct (Z.eqb_spec (out c) 0); [lia |].
  destruct (Z.eqb_spec (out c) rate); [lia |].
  destruct (Z.gtb_spec (out c) rate); [| lia].
  rewrite mid_exact by lia.
  destruct (_ >? rate); rewrite to_long_small; (reflexivity || lia).
Qed.

(** On an array of table-sized entries closed by a sentinel the scan
    always returns, and what it returns is the frequency of [prev] or of
    one of the entries. *)
Lemma round_rate_scan_total (l : list xclockdac_rate) :
  forall (prev : option xclockdac_rate) (rate : Z),
    Forall (fun e => 0 < out e < 2 ^ 31) l ->
    match prev with
    | Some p => 0 < out p < 2 ^ 31
    | None => l <> []
    end ->
    exists e, round_rate_scan a (l ++ [mk_rate 0 0]) prev rate = Some (out e)
              /\ (In e l \/ prev = Some e).
Proof.
  induction l as [| x l IH]; intros prev rate HF Hprev; simpl.
  - destruct prev as [p |]; [| contradiction].
    exists p. rewrite to_long_small by lia. auto.
  - pose proof (Forall_inv HF) as Hx. cbv beta in Hx.
    apply Forall_inv_tail in HF.
    destruct (Z.eqb_spec (out x) 0); [lia |].
    destruct (Z.eqb_spec (out x) rate) as [Hr | Hr].
    { exists x. rewrite <- Hr, to_long_small by lia. auto. }
    destruct (out x >? rate).
    + destruct prev as [p |].
      * destruct (_ >? rate); [exists p | exists x];
          rewrite to_long_small by lia; auto.
      * exists x. rewrite to_long_small by lia. auto.
    + destruct (IH (Some x) rate HF Hx) as [e [He Hin]].
      exists e. split; [exact He |].
      destruct Hin as [Hin | Hin]; [auto |].
      injection Hin as <-. auto.
Qed.

(** An exact match is returned as it is, whatever lies before it. *)
Lemma round_rate_fixed (e : xclockdac_rate) :
  In e rate_table -> xclockdac_round_rate a (out e) = Some (out e).
Proof.
  intros H. unfold xclockdac_round_rate.
  table_cases H; simpl; rewrite to_long_small; (reflexivity || lia).
Qed.

End RoundRateFacts.

(** The table is ordered by strictly increasing frequency. *)
Lemma rate_table_increasing :
  forall l1 p l2, rate_table = l1 ++ p :: l2 ->
                  Forall (fun e => out e < out p) l1
                  /\ Forall (fun e => out p < out e) l2.
Proof.
  intros l1 p l2 H. rewrite rate_table_unfold in H.
  repeat (destruct l1 as [| ? l1]; simpl in H;
          [ injection H as <- <-; split; repeat constructor; simpl; lia
          | injection H as <- H ]).
  destruct l1; discriminate.
Qed.

(** ** The register transport *)

Lemma regmap_write_ret (m : regmap) (reg val val' : Z) :
  fst (regmap_write m reg val) = fst (regmap_write m reg val').
Proof.
  unfold regmap_write. destruct (next_fault m) as [r rest].
  now destruct (r <? 0).
Qed.

Lemma regmap_write_failed (m : regmap) (reg val : Z) :
  fst (regmap_write m reg val) < 0 ->
  device_reg (snd (regmap_write m reg val)) = device_reg m.
Proof.
  unfold regmap_write. destruct (next_fault m) as [r rest].
  destruct (Z.ltb_spec r 0); simpl; [reflexivity | lia].
Qed.

(** ** The cached register value stays a byte *)

Lemma write_reg_shadow (d : clk_xclockdac_drvdata) (value : Z) :
  shadow (snd (xclockdac_write_reg d value)) = to_u8 value.
Proof.
  unfold xclockdac_write_reg. now destruct (regmap_write _ _ _).
Qed.

Lemma set_rate_shadow_byte (d d' : clk_xclockdac_drvdata) (rate ret : Z) :
  0 <= shadow d < 2 ^ 8 ->
  xclockdac_set_rate d rate = Some (ret, d') ->
  0 <= shadow d' < 2 ^ 8.
Proof.
  unfold xclockdac_set_rate. intros Hd H.
  destruct (set_rate_scan _ _) as [e |]; [| discriminate].
  destruct (out e =? 0).
  - now injection H as _ <-.
  - injection H as H. apply (f_equal snd) in H. simpl in H. subst d'.
    rewrite write_reg_shadow. unfold to_u8. apply Z.mod_pos_bound. lia.
Qed.

Lemma regmap_read_byte (m m' : regmap) (reg ret val : Z) :
  regmap_read m reg = (ret, val, m') -> 0 <= val < 2 ^ 8.
Proof.
  unfold regmap_read. destruct (next_fault m) as [r rest].
  destruct (r <? 0); intros H; injection H as _ <- _; [lia |].
  unfold to_u8. apply Z.mod_pos_bound. lia.
Qed.

(** ** Table look-ups and a commit on a healthy bus *)

(** Looking a frequency up and looking its code up again gives the
    frequency back, for every entry. *)
Lemma lookup_round_trip (e : xclockdac_rate) :
  In e rate_table ->
  set_rate_scan xclockdac_rates (out e) = Some e
  /\ recalc_rate_scan xclockdac_rates (reg_value e) = Some (out e).
Proof.
  intros H. split; [now apply set_rate_scan_hit | now apply recalc_rate_scan_hit].
Qed.

(** A clock read back at 44100 Hz, committed to 48000 Hz: the code 0x0B
    reaches the chip and the reported rate follows. *)
Example commit_48000 :
  xclockdac_recalc_rate Fixtures.clk_44100 = Some 44100
  /\ xclockdac_set_rate Fixtures.clk_44100 48000
     = Some (0, mk_drvdata (mk_regmap 0x0B []) 0x0B)
  /\ xclockdac_recalc_rate (mk_drvdata (mk_regmap 0x0B []) 0x0B)
     = Some 48000.
Proof. repeat split. Qed.

(** * The claims *)

(** ** Commit path *)

(** C1, as the spec words it, fails: on a clock at 44100 Hz whose next bus
    transfer fails, [set_rate 48000] returns the I/O error and yet leaves
    the code of 48000 Hz in the cache, so the reported rate moves from
    44100 to 48000 while the chip still holds the old code. *)
Lemma set_rate_failed_write_moves_shadow :
  xclockdac_set_rate Fixtures.clk_44100_next_fails 48000
  = Some (- EIO, mk_drvdata (mk_regmap 0x03 []) 0x0B)
  /\ shadow Fixtures.clk_44100_next_fails = 0x03
  /\ xclockdac_recalc_rate Fixtures.clk_44100_next_fails = Some 44100
  /\ xclockdac_recalc_rate (mk_drvdata (mk_regmap 0x03 []) 0x0B) = Some 48000.
Proof. repeat split. Qed.

(** C1 (amended): [set_rate] stores the code of the requested rate in the
    cache before it issues the register write and does not restore it.
    When the write fails, the transport's error is returned, the chip's
    register is as it was, and the cache (hence the value
    [xclockdac_recalc_rate] reports) holds the requested rate. *)
Theorem set_rate_caches_before_write
        (d : clk_xclockdac_drvdata) (e : xclockdac_rate) :
  In e rate_table ->
  fst (regmap_write (bus d) SMBUS_DAC_SET (reg_value e)) < 0 ->
  exists d',
    xclockdac_set_rate d (out e)
    = Some (fst (regmap_write (bus d) SMBUS_DAC_SET (reg_value e)), d')
    /\ shadow d' = reg_value e
    /\ device_reg (bus d') = device_reg (bus d)
    /\ xclockdac_recalc_rate d' = Some (out e).
Proof.
  intros He Hfail.
  exists (snd (xclockdac_write_reg d (reg_value e))).
  assert (Hbyte : to_u8 (reg_value e) = reg_value e).
  { apply to_u8_small.
    pose proof rate_table_bounds as HB. rewrite Forall_forall in HB.
    now apply HB. }
  split; [| split; [| split]].
  - rewrite (set_rate_exact d e He). f_equal.
    unfold xclockdac_write_reg. rewrite Hbyte.
    destruct (regmap_write _ _ _) as [ret m] eqn:Hw. simpl in *.
    destruct (Z.ltb_spec ret 0); [reflexivity | lia].
  - rewrite write_reg_shadow. exact Hbyte.
  - unfold xclockdac_write_reg. rewrite Hbyte.
    pose proof (regmap_write_failed _ _ _ Hfail) as Hdev.
    now destruct (regmap_write _ _ _).
  - now apply recalc_after_write.
Qed.

Lemma set_rate_caches_before_write_witness :
  In (mk_rate 48000 0x0B) rate_table
  /\ fst (regmap_write (bus Fixtures.clk_44100_next_fails) SMBUS_DAC_SET 0x0B) < 0
  /\ exists d',
      xclockdac_set_rate Fixtures.clk_44100_next_fails 48000
      = Some (- EIO, d')
      /\ shadow d' = 0x0B
      /\ device_reg (bus d') = 0x03
      /\ xclockdac_recalc_rate d' = Some 48000.
Proof.
  assert (Hin : In (mk_rate 48000 0x0B) rate_table).
  { simpl. auto. }
  assert (Hlt : fst (regmap_write (bus Fixtures.clk_44100_next_fails)
                                  SMBUS_DAC_SET 0x0B) < 0).
  { reflexivity. }
  split; [exact Hin | split; [exact Hlt |]].
  exact (set_rate_caches_before_write
           Fixtures.clk_44100_next_fails (mk_rate 48000 0x0B) Hin Hlt).
Defined.

(** C3: a rate that is not a frequency of the table is refused with
    [-EINVAL]; the driver data comes back as it went in, so no register
    write was issued and the reported rate is unchanged. *)
Theorem set_rate_rejects_unlisted (d : clk_xclockdac_drvdata) (rate : Z) :
  ~ In rate supported_rates ->
  xclockdac_set_rate d rate = Some (- EINVAL, d)
  /\ (forall ret d', xclockdac_set_rate d rate = Some (ret, d') ->
        bus d' = bus d
        /\ xclockdac_recalc_rate d' = xclockdac_recalc_rate d).
Proof.
  intros Hn.
  assert (H : xclockdac_set_rate d rate = Some (- EINVAL, d)).
  { unfold xclockdac_set_rate.
    destruct (set_rate_scan_terminated xclockdac_rates rate eq_refl)
      as [e He].
    rewrite He.
    rewrite (set_rate_scan_miss xclockdac_rates rate Hn e He).
    reflexivity. }
  split; [exact H |].
  intros ret d' H'. rewrite H in H'. injection H' as _ <-. auto.
Qed.

Lemma set_rate_rejects_unlisted_witness :
  ~ In 45000 supported_rates
  /\ xclockdac_set_rate Fixtures.clk_44100 45000
     = Some (- EINVAL, Fixtures.clk_44100).
Proof.
  assert (Hn : ~ In 45000 supported_rates).
  { simpl. intros H.
    repeat (destruct H as [H | H]; [discriminate H |]). exact H. }
  split; [exact Hn |].
  exact (proj1 (set_rate_rejects_unlisted Fixtures.clk_44100 45000 Hn)).
Defined.

(** ** Rounding *)

(** C4: a request strictly between two neighbouring table frequencies
    [prev] and [curr] is rounded to [prev] when the midpoint
    [prev + (curr - prev) / 2] (floor division) is greater than the
    request and to [curr] otherwise; the midpoint itself goes up, so
    16537 is rounded to 22050. *)
Theorem round_rate_between_neighbours
        (a : abi) (l1 l2 : list xclockdac_rate) (p c : xclockdac_rate)
        (rate : Z) :
  rate_table = l1 ++ p :: c :: l2 ->
  out p < rate < out c ->
  xclockdac_round_rate a rate
  = Some (if out p + (out c - out p) / 2 >? rate then out p else out c)
  /\ xclockdac_round_rate a 16537 = Some 22050.
Proof.
  intros Hsplit Hrate. split.
  - pose proof rate_table_bounds as HB. rewrite Hsplit in HB.
    apply Forall_app in HB. destruct HB as [HB1 HB].
    pose proof (Forall_inv HB) as [Hp _]. apply Forall_inv_tail in HB.
    pose proof (Forall_inv HB) as [Hc _].
    destruct (rate_table_increasing l1 p (c :: l2) Hsplit) as [Hlow _].
    unfold xclockdac_round_rate.
    rewrite xclockdac_rates_split, Hsplit, <- app_assoc. simpl.
    rewrite round_rate_scan_below.
    + apply round_rate_scan_between; lia.
    + apply Forall_app. split.
      * rewrite Forall_forall in *. intros e He.
        specialize (HB1 e He). specialize (Hlow e He). simpl in *. lia.
      * constructor; [lia | constructor].
  - destruct a; reflexivity.
Qed.

Lemma round_rate_between_neighbours_witness :
  out (mk_rate 11025 0x04) < 16537 < out (mk_rate 22050 0x0C)
  /\ xclockdac_round_rate LP64 16537 = Some 22050
  /\ xclockdac_round_rate LP64 16536 = Some 11025.
Proof.
  assert (Hsplit : rate_table
                   = [] ++ mk_rate 11025 0x04 :: mk_rate 22050 0x0C
                        :: skipn 2 rate_table).
  { reflexivity. }
  assert (H1 : out (mk_rate 11025 0x04) < 16537 < out (mk_rate 22050 0x0C)).
  { simpl. lia. }
  assert (H2 : out (mk_rate 11025 0x04) < 16536 < out (mk_rate 22050 0x0C)).
  { simpl. lia. }
  split; [exact H1 |]. split.
  - exact (proj1 (round_rate_between_neighbours LP64 _ _ _ _ 16537 Hsplit H1)).
  - exact (proj1 (round_rate_between_neighbours LP64 _ _ _ _ 16536 Hsplit H2)).
Defined.

(** C5: a request below every supported frequency is rounded to 11025, a
    request above every supported frequency to 192000. *)
Theorem round_rate_clamps (a : abi) (rate : Z) :
  ((forall f, In f supported_rates -> rate < f) ->
   xclockdac_round_rate a rate = Some 11025)
  /\ ((forall f, In f supported_rates -> f < rate) ->
      xclockdac_round_rate a rate = Some 192000).
Proof.
  split; intros H.
  - assert (Hlow : rate < 11025) by (apply H; simpl; auto).
    unfold xclockdac_round_rate.
    change xclockdac_rates with (mk_rate 11025 0x04 :: tl xclockdac_rates).
    apply (round_rate_scan_first a (mk_rate 11025 0x04)); simpl; lia.
  - unfold xclockdac_round_rate.
    change xclockdac_rates
      with (firstn 7 rate_table ++ mk_rate 192000 0x09 :: [mk_rate 0 0]).
    rewrite round_rate_scan_below.
    + simpl. now rewrite to_long_small by lia.
    + change (firstn 7 rate_table ++ [mk_rate 192000 0x09]) with rate_table.
      pose proof rate_table_bounds as HB.
      rewrite Forall_forall in *. intros e He.
      specialize (HB e He). specialize (H (out e) (in_map out _ _ He)). lia.
Qed.

Lemma round_rate_clamps_witness :
  xclockdac_round_rate LP64 8000 = Some 11025
  /\ xclockdac_round_rate ILP32 384000 = Some 192000.
Proof.
  split.
  - apply (proj1 (round_rate_clamps LP64 8000)).
    intros f Hf. simpl in Hf.
    repeat (destruct Hf as [Hf | Hf]; [subst f; reflexivity |]).
    contradiction Hf.
  - apply (proj2 (round_rate_clamps ILP32 384000)).
    intros f Hf. simpl in Hf.
    repeat (destruct Hf as [Hf | Hf]; [subst f; reflexivity |]).
    contradiction Hf.
Defined.

(** C6: [xclockdac_round_rate] returns for every request an
    [unsigned long] can carry, what it returns is a frequency of the
    table, and each frequency of the table is returned unchanged. *)
Theorem round_rate_total_fixed (a : abi) (rate : Z) :
  0 <= rate <= ULONG_MAX a ->
  (exists f, xclockdac_round_rate a rate = Some f /\ In f supported_rates)
  /\ (In rate supported_rates -> xclockdac_round_rate a rate = Some rate).
Proof.
  intros _. split.
  - unfold xclockdac_round_rate. rewrite xclockdac_rates_split.
    destruct (round_rate_scan_total a rate_table None rate) as [e [He Hin]].
    + eapply Forall_impl; [| exact rate_table_bounds].
      intros x Hx. simpl in Hx. tauto.
    + discriminate.
    + exists (out e). split; [exact He |].
      destruct Hin as [Hin | Hin]; [| discriminate].
      now apply in_map.
  - intros Hin. apply in_map_iff in Hin. destruct Hin as [e [<- He]].
    now apply round_rate_fixed.
Qed.

Lemma round_rate_total_fixed_witness :
  0 <= 44100 <= ULONG_MAX ILP32
  /\ (exists f, xclockdac_round_rate ILP32 44100 = Some f
                /\ In f supported_rates)
  /\ xclockdac_round_rate ILP32 44100 = Some 44100.
Proof.
  assert (Hr : 0 <= 44100 <= ULONG_MAX ILP32).
  { unfold ULONG_MAX. simpl. lia. }
  split; [exact Hr |]. split.
  - exact (proj1 (round_rate_total_fixed ILP32 44100 Hr)).
  - apply (proj2 (round_rate_total_fixed ILP32 44100 Hr)).
    simpl. auto.
Defined.

(** ** Reading the rate back *)

(** C7: with a byte in the cache, [xclockdac_recalc_rate] never fails.  A
    code that is in no table entry gives 0, which is not a supported
    frequency; a code of the table gives the frequency of its entry. *)
Theorem recalc_rate_lookup (d : clk_xclockdac_drvdata) :
  0 <= shadow d < 2 ^ 8 ->
  (~ In (shadow d) (map reg_value rate_table) ->
   xclockdac_recalc_rate d = Some 0 /\ ~ In 0 supported_rates)
  /\ (forall e, In e rate_table -> shadow d = reg_value e ->
                xclockdac_recalc_rate d = Some (out e)).
Proof.
  intros Hb. unfold xclockdac_recalc_rate. rewrite to_u8_small by exact Hb.
  split.
  - intros Hn. split.
    + now apply recalc_rate_scan_miss.
    + intros H0. apply in_map_iff in H0. destruct H0 as [e [H0 He]].
      pose proof (entries_nonzero xclockdac_rates) as HZ.
      rewrite Forall_forall in HZ. exact (HZ e He H0).
  - intros e He ->. now apply recalc_rate_scan_hit.
Qed.

Lemma recalc_rate_lookup_witness :
  0 <= shadow Fixtures.clk_foreign < 2 ^ 8
  /\ xclockdac_recalc_rate Fixtures.clk_foreign = Some 0
  /\ xclockdac_recalc_rate Fixtures.clk_44100 = Some 44100.
Proof.
  assert (Hb : 0 <= shadow Fixtures.clk_foreign < 2 ^ 8).
  { simpl. lia. }
  assert (Hb' : 0 <= shadow Fixtures.clk_44100 < 2 ^ 8).
  { simpl. lia. }
  split; [exact Hb |]. split.
  - apply (proj1 (recalc_rate_lookup Fixtures.clk_foreign Hb)).
    simpl. intros H.
    repeat (destruct H as [H | H]; [discriminate H |]). exact H.
  - apply (proj2 (recalc_rate_lookup Fixtures.clk_44100 Hb')
             (mk_rate 44100 0x03)).
    + simpl. auto.
    + reflexivity.
Defined.

(** ** Attach *)

(** C2, as the spec words it, fails: on a host where only the write of the
    default rate fails, the probe of the clock driver turns that failure
    into [-EINVAL] and the device is not attached. *)
Lemma i2c_probe_default_rate_failure_is_fatal :
  clk_set_rate Fixtures.i2c_host_write_fails
               (mk_drvdata (mk_regmap 0x0B [- EIO]) 0x0B) DEFAULT_RATE
  = Some (- EIO, mk_drvdata (mk_regmap 0x0B []) 0x03)
  /\ xclockdac_i2c_probe Fixtures.i2c_host_write_fails
     = Some (- EINVAL, Some (mk_drvdata (mk_regmap 0x0B []) 0x03))
  /\ attached (xclockdac_i2c_probe Fixtures.i2c_host_write_fails) = false.
Proof. repeat split. Qed.

(** C2 (amended): when every step of the clock driver's probe before the
    default rate succeeds and applying the default rate (44100 Hz) then
    fails, the probe reports [-EINVAL] upward and the attach fails: the
    device is not marked attached. *)
Theorem i2c_probe_default_rate_failure
        (h : i2c_host) (m m' : regmap) (r val ret : Z)
        (d' : clk_xclockdac_drvdata) :
  devm_kzalloc h = true ->
  IS_ERR (devm_clk_get h) = false ->
  devm_regmap_init_i2c h = PTR m ->
  regmap_read m SMBUS_DAC_SET = (r, val, m') ->
  0 <= r ->
  IS_ERR (devm_clk_register h) = false ->
  of_clk_add_provider h = 0 ->
  clk_set_rate h (mk_drvdata m' val) DEFAULT_RATE = Some (ret, d') ->
  ret <> 0 ->
  DEFAULT_RATE = 44100
  /\ xclockdac_i2c_probe h = Some (- EINVAL, Some d')
  /\ attached (xclockdac_i2c_probe h) = false.
Proof.
  intros Hk Hc Hm Hr Hr0 Hreg Hp Hs Hret.
  assert (H : xclockdac_i2c_probe h = Some (- EINVAL, Some d')).
  { unfold xclockdac_i2c_probe.
    rewrite Hk, Hc, Hm, Hr. simpl.
    destruct (Z.ltb_spec r 0); [lia |].
    rewrite Hreg, Hp, Hs. simpl.
    destruct (Z.eqb_spec ret 0); [contradiction | reflexivity]. }
  split; [reflexivity |]. split; [exact H |].
  rewrite H. reflexivity.
Qed.

Lemma i2c_probe_default_rate_failure_witness :
  xclockdac_i2c_probe Fixtures.i2c_host_write_fails
  = Some (- EINVAL, Some (mk_drvdata (mk_regmap 0x0B []) 0x03))
  /\ attached (xclockdac_i2c_probe Fixtures.i2c_host_write_fails) = false.
Proof.
  assert (Hne : - EIO <> 0) by discriminate.
  assert (Hr0 : 0 <= 0) by discriminate.
  exact (proj2 (i2c_probe_default_rate_failure
                  Fixtures.i2c_host_write_fails
                  (mk_regmap 0x0B [0; - EIO]) (mk_regmap 0x0B [- EIO])
                  0 0x0B (- EIO) (mk_drvdata (mk_regmap 0x0B []) 0x03)
                  eq_refl eq_refl eq_refl eq_refl Hr0 eq_refl eq_refl eq_refl
                  Hne)).
Defined.

(** The machine driver applies the default rate as well, but discards the
    outcome: its probe returns 0 whatever [clk_set_rate] answered. *)
Lemma machine_probe_ignores_default_rate_outcome
      (clk : Type) (h : SndRpiXclockdac.platform_host clk)
      (st : SndRpiXclockdac.xclockdac_drv_data clk)
      (i2s : Z) (c c' : clk) (ret : Z) :
  SndRpiXclockdac.of_node h = true ->
  SndRpiXclockdac.of_parse_phandle h = Some i2s ->
  SndRpiXclockdac.devm_snd_soc_register_card h = 0 ->
  SndRpiXclockdac.devm_clk_get h = PTR c ->
  SndRpiXclockdac.clk_set_rate h c SndRpiXclockdac.DEFAULT_RATE
  = Some (ret, c') ->
  SndRpiXclockdac.snd_rpi_xclockdac_probe h st
  = Some (0, SndRpiXclockdac.mk_drv_data (PTR c') (Some i2s) (Some i2s)).
Proof.
  intros Hn Hp Hr Hc Hs. unfold SndRpiXclockdac.snd_rpi_xclockdac_probe,
    SndRpiXclockdac.probe_of_node.
  rewrite Hn, Hp, Hr, Hc, Hs. reflexivity.
Qed.

(** The two deferring paths of the machine driver's probe: a device tree
    without the "i2s-controller" phandle, and a card registration that
    asks to be retried. *)
Lemma machine_probe_defers_without_i2s
      (clk : Type) (h : SndRpiXclockdac.platform_host clk)
      (st : SndRpiXclockdac.xclockdac_drv_data clk) :
  SndRpiXclockdac.of_node h = true ->
  SndRpiXclockdac.of_parse_phandle h = None ->
  SndRpiXclockdac.snd_rpi_xclockdac_probe h st = Some (- EPROBE_DEFER, st).
Proof.
  intros Hn Hp. unfold SndRpiXclockdac.snd_rpi_xclockdac_probe,
    SndRpiXclockdac.probe_of_node.
  now rewrite Hn, Hp.
Qed.

Lemma machine_probe_defers_with_card
      (clk : Type) (h : SndRpiXclockdac.platform_host clk)
      (st : SndRpiXclockdac.xclockdac_drv_data clk) :
  SndRpiXclockdac.devm_snd_soc_register_card h = - EPROBE_DEFER ->
  exists st',
    SndRpiXclockdac.snd_rpi_xclockdac_probe h st = Some (- EPROBE_DEFER, st').
Proof.
  intros Hr. unfold SndRpiXclockdac.snd_rpi_xclockdac_probe.
  destruct (SndRpiXclockdac.probe_of_node h st) as [e | st'] eqn:Hn.
  - unfold SndRpiXclockdac.probe_of_node in Hn.
    destruct (SndRpiXclockdac.of_node h); [| discriminate].
    destruct (SndRpiXclockdac.of_parse_phandle h); [discriminate |].
    injection Hn as <-. now exists st.
  - rewrite Hr. now exists st'.
Qed.

(** C8: a clock provider that is not ready yet makes the clock lookup
    answer [-EPROBE_DEFER]; the machine driver's probe replaces that by
    [-ENODEV], a permanent failure, although the device tree names the I2S
    controller and the card registered. *)
Theorem machine_probe_clk_not_ready_is_fatal :
  SndRpiXclockdac.devm_clk_get Fixtures.platform_host_clk_not_ready
  = ERR_PTR (- EPROBE_DEFER)
  /\ SndRpiXclockdac.snd_rpi_xclockdac_probe
       Fixtures.platform_host_clk_not_ready Fixtures.drv_data_zero
     = Some (- ENODEV,
             SndRpiXclockdac.mk_drv_data (ERR_PTR (- ENOENT))
                                         (Some 1) (Some 1))
  /\ - ENODEV <> - EPROBE_DEFER.
Proof. repeat split. discriminate. Qed.

(** ** Stream open and parameter commit *)

(** C9: the list installed at stream open, by the machine driver and by
    the codec alike, is the list of the clock table's frequencies; on a
    fresh runtime a rate is negotiable afterwards exactly when it is one
    of the eight. *)
Theorem startup_constraint_is_rate_table :
  firstn (count SndRpiXclockdac.xclockdac_constraints)
         (list_ SndRpiXclockdac.xclockdac_constraints) = supported_rates
  /\ firstn (count Tda1541a.dai_constraints)
            (list_ Tda1541a.dai_constraints) = supported_rates
  /\ supported_rates
     = [11025; 22050; 44100; 48000; 88200; 96000; 176400; 192000]
  /\ (forall r : Z,
        negotiable (snd (SndRpiXclockdac.snd_rpi_xclockdac_startup
                           (mk_runtime [])))
                   SNDRV_PCM_HW_PARAM_RATE r = true
        <-> In r supported_rates)
  /\ (forall r : Z,
        negotiable (snd (Tda1541a.tda1541a_startup (mk_runtime [])))
                   SNDRV_PCM_HW_PARAM_RATE r = true
        <-> In r supported_rates)
  /\ (forall (rt : snd_pcm_runtime) (r : Z),
        fst (SndRpiXclockdac.snd_rpi_xclockdac_startup rt) = 0
        /\ negotiable (snd (SndRpiXclockdac.snd_rpi_xclockdac_startup rt))
                      SNDRV_PCM_HW_PARAM_RATE r
           = existsb (Z.eqb r) supported_rates
             && negotiable rt SNDRV_PCM_HW_PARAM_RATE r).
Proof.
  assert (Hholds : forall l r,
             firstn (count l) (list_ l) = supported_rates ->
             negotiable (mk_runtime [(SNDRV_PCM_HW_PARAM_RATE, l)])
                        SNDRV_PCM_HW_PARAM_RATE r = true
             <-> In r supported_rates).
  { intros l r Hl. unfold negotiable, list_holds. simpl. rewrite Hl.
    rewrite andb_true_r, existsb_exists. split.
    - intros [x [Hx Heq]]. apply Z.eqb_eq in Heq. now subst.
    - intros Hin. exists r. split; [exact Hin | apply Z.eqb_refl]. }
  repeat split; try reflexivity.
  - apply (Hholds SndRpiXclockdac.xclockdac_constraints r eq_refl).
  - apply (Hholds SndRpiXclockdac.xclockdac_constraints r eq_refl).
  - apply (Hholds Tda1541a.dai_constraints r eq_refl).
  - apply (Hholds Tda1541a.dai_constraints r eq_refl).
Qed.

(** C10: [tda1541a_hw_params] accepts a parameter set exactly when its
    sample width is 16 bits and answers [-EINVAL] for every other width,
    24 and 32 among them; the only format the DAI advertises is S16_LE. *)
Theorem hw_params_only_16_bit
        (params : snd_pcm_hw_params) (priv : Tda1541a.tda1541a_private) :
  (params_width params = 16 ->
   fst (Tda1541a.tda1541a_hw_params params priv) = 0)
  /\ (params_width params <> 16 ->
      fst (Tda1541a.tda1541a_hw_params params priv) = - EINVAL)
  /\ (forall fmt : Z,
        0 <= fmt ->
        Z.testbit (Tda1541a.formats Tda1541a.tda1541a_dai_playback) fmt
        = true
        <-> fmt = Tda1541a.SNDRV_PCM_FORMAT_S16_LE).
Proof.
  unfold Tda1541a.tda1541a_hw_params.
  split; [| split].
  - intros ->. reflexivity.
  - intros Hw. destruct (Z.eqb_spec (params_width params) 16);
      [contradiction | reflexivity].
  - intros fmt Hfmt. change (Tda1541a.formats Tda1541a.tda1541a_dai_playback)
      with (2 ^ 2).
    rewrite Z.pow2_bits_eqb by lia. unfold Tda1541a.SNDRV_PCM_FORMAT_S16_LE.
    rewrite Z.eqb_eq. split; intros H; now symmetry.
Qed.

Lemma hw_params_only_16_bit_witness :
  fst (Tda1541a.tda1541a_hw_params (mk_hw_params 44100 16)
                                   (Tda1541a.mk_private 0)) = 0
  /\ fst (Tda1541a.tda1541a_hw_params (mk_hw_params 96000 24)
                                      (Tda1541a.mk_private 0)) = - EINVAL
  /\ fst (Tda1541a.tda1541a_hw_params (mk_hw_params 96000 32)
                                      (Tda1541a.mk_private 0)) = - EINVAL
  /\ Z.testbit (Tda1541a.formats Tda1541a.tda1541a_dai_playback)
               Tda1541a.SNDRV_PCM_FORMAT_S24_LE <> true.
Proof.
  split; [| split; [| split]].
  - apply (proj1 (hw_params_only_16_bit (mk_hw_params 44100 16)
                                        (Tda1541a.mk_private 0))).
    reflexivity.
  - apply (proj1 (proj2 (hw_params_only_16_bit (mk_hw_params 96000 24)
                                               (Tda1541a.mk_private 0)))).
    simpl. discriminate.
  - apply (proj1 (proj2 (hw_params_only_16_bit (mk_hw_params 96000 32)
                                               (Tda1541a.mk_private 0)))).
    simpl. discriminate.
  - intros H.
    apply (proj2 (proj2 (hw_params_only_16_bit (mk_hw_params 96000 24)
                                               (Tda1541a.mk_private 0)))) in H.
    + discriminate H.
    + unfold Tda1541a.SNDRV_PCM_FORMAT_S24_LE. lia.
Defined.

(** * Further properties of the three drivers *)

Import Sequences.

(** ** Rounding: helper facts *)

Section RoundRateMore.
Variable a : abi.

Lemma round_rate_low (rate : Z) :
  rate < 11025 -> xclockdac_round_rate a rate = Some 11025.
Proof.
  intros H. unfold xclockdac_round_rate.
  change xclockdac_rates with (mk_rate 11025 0x04 :: tl xclockdac_rates).
  apply (round_rate_scan_first a (mk_rate 11025 0x04)); simpl; lia.
Qed.

Lemma round_rate_high (rate : Z) :
  192000 < rate -> xclockdac_round_rate a rate = Some 192000.
Proof.
  intros H. unfold xclockdac_round_rate.
  change xclockdac_rates
    with (firstn 7 rate_table ++ mk_rate 192000 0x09 :: [mk_rate 0 0]).
  rewrite round_rate_scan_below.
  - simpl. now rewrite to_long_small by lia.
  - change (firstn 7 rate_table ++ [mk_rate 192000 0x09]) with rate_table.
    rewrite rate_table_unfold. repeat constructor; simpl; lia.
Qed.

Lemma round_rate_gap (l1 l2 : list xclockdac_rate) (p c : xclockdac_rate)
      (rate : Z) :
  rate_table = l1 ++ p :: c :: l2 ->
  out p < rate < out c ->
  xclockdac_round_rate a rate
  = Some (if out p + (out c - out p) / 2 >? rate then out p else out c).
Proof.
  intros Hsplit Hrate.
  pose proof rate_table_bounds as HB. rewrite Hsplit in HB.
  apply Forall_app in HB. destruct HB as [HB1 HB].
  pose proof (Forall_inv HB) as [Hp _]. apply Forall_inv_tail in HB.
  pose proof (Forall_inv HB) as [Hc _].
  destruct (rate_table_increasing l1 p (c :: l2) Hsplit) as [Hlow _].
  unfold xclockdac_round_rate.
  rewrite xclockdac_rates_split, Hsplit, <- app_assoc. simpl.
  rewrite round_rate_scan_below.
  - apply round_rate_scan_between; lia.
  - apply Forall_app. split.
    + rewrite Forall_forall in *. intros e He.
      specialize (HB1 e He). specialize (Hlow e He). simpl in *. lia.
    + constructor; [lia | constructor].
Qed.


End RoundRateMore.

Ltac split_comparisons :=
  repeat match goal with
         | |- context [?x <? ?y] => destruct (Z.ltb_spec x y); try lia
         | |- context [?x >? ?y] => destruct (Z.gtb_spec x y); try lia
         end.

Ltac in_gap i :=
  let l1 := eval vm_compute in (firstn i rate_table) in
  let l2 := eval vm_compute in (skipn (S (S i)) rate_table) in
  let p := eval vm_compute in (nth i rate_table (mk_rate 0 0)) in
  let c := eval vm_compute in (nth (S i) rate_table (mk_rate 0 0)) in
  rewrite (round_rate_gap _ l1 l2 p c _ eq_refl); cbn [out];
  [ match goal with
    | |- context [?m >? _] => let v := eval vm_compute in m in change m with v
    end;
    unfold round_rate_thresholds; split_comparisons; reflexivity
  | lia ].

Ltac at_entry e :=
  subst; rewrite (round_rate_fixed _ e); cbn [out];
  [ reflexivity | rewrite rate_table_unfold; simpl; tauto ].

Lemma round_rate_piecewise (a : abi) (rate : Z) :
  xclockdac_round_rate a rate = Some (round_rate_thresholds rate).
Proof.
  assert (Hcase :
            rate < 11025 \/ rate = 11025 \/ 11025 < rate < 22050
            \/ rate = 22050 \/ 22050 < rate < 44100
            \/ rate = 44100 \/ 44100 < rate < 48000
            \/ rate = 48000 \/ 48000 < rate < 88200
            \/ rate = 88200 \/ 88200 < rate < 96000
            \/ rate = 96000 \/ 96000 < rate < 176400
            \/ rate = 176400 \/ 176400 < rate < 192000
            \/ rate = 192000 \/ 192000 < rate) by lia.
  destruct Hcase as
      [H | [H | [H | [H | [H | [H | [H | [H | [H | [H | [H | [H | [H |
       [H | [H | [H | H]]]]]]]]]]]]]]]].
  - rewrite round_rate_low by exact H.
    unfold round_rate_thresholds. split_comparisons. reflexivity.
  - at_entry (mk_rate 11025 0x04).
  - in_gap 0%nat.
  - at_entry (mk_rate 22050 0x0C).
  - in_gap 1%nat.
  - at_entry (mk_rate 44100 0x03).
  - in_gap 2%nat.
  - at_entry (mk_rate 48000 0x0B).
  - in_gap 3%nat.
  - at_entry (mk_rate 88200 0x02).
  - in_gap 4%nat.
  - at_entry (mk_rate 96000 0x0A).
  - in_gap 5%nat.
  - at_entry (mk_rate 176400 0x01).
  - in_gap 6%nat.
  - at_entry (mk_rate 192000 0x09).
  - rewrite round_rate_high by exact H.
    unfold round_rate_thresholds. split_comparisons. reflexivity.
Qed.

(** ** Commit and read-back: helper facts *)

Lemma set_rate_miss (d : clk_xclockdac_drvdata) (rate : Z) :
  ~ In rate supported_rates ->
  xclockdac_set_rate d rate = Some (- EINVAL, d).
Proof.
  intros Hn. unfold xclockdac_set_rate.
  destruct (set_rate_scan_terminated xclockdac_rates rate eq_refl) as [e He].
  rewrite He, (set_rate_scan_miss xclockdac_rates rate Hn e He).
  reflexivity.
Qed.

Lemma set_rate_cases (d : clk_xclockdac_drvdata) (rate : Z) :
  (exists e, In e rate_table /\ out e = rate
             /\ xclockdac_set_rate d rate
                = Some (xclockdac_write_reg d (reg_value e)))
  \/ (~ In rate supported_rates
      /\ xclockdac_set_rate d rate = Some (- EINVAL, d)).
Proof.
  destruct (in_dec Z.eq_dec rate supported_rates) as [Hin | Hn].
  - left. apply in_map_iff in Hin. destruct Hin as [e [<- He]].
    exists e. repeat split; [exact He | now apply set_rate_exact].
  - right. split; [exact Hn | now apply set_rate_miss].
Qed.

Lemma to_u8_idem (z : Z) : to_u8 (to_u8 z) = to_u8 z.
Proof. unfold to_u8. apply Z.mod_mod. lia. Qed.

Lemma write_reg_outcome (d d' : clk_xclockdac_drvdata) (value ret : Z) :
  xclockdac_write_reg d value = (ret, d') ->
  ret <= 0
  /\ shadow d' = to_u8 value
  /\ (ret = 0 -> device_reg (bus d') = to_u8 value).
Proof.
  unfold xclockdac_write_reg, regmap_write.
  destruct (next_fault (bus d)) as [r rest].
  destruct (r <? 0) eqn:Er; cbn; rewrite ?Er; intros Hw;
    injection Hw as <- <-; cbn.
  - apply Z.ltb_lt in Er. repeat split; lia.
  - repeat split; [lia | intros _; apply to_u8_idem].
Qed.

Lemma table_code_byte (e : xclockdac_rate) :
  In e rate_table -> to_u8 (reg_value e) = reg_value e.
Proof.
  intros He. apply to_u8_small.
  pose proof rate_table_bounds as HB. rewrite Forall_forall in HB.
  now apply HB.
Qed.


Lemma is_supported_spec (r : Z) :
  is_supported r = true <-> In r supported_rates.
Proof.
  unfold is_supported. rewrite existsb_exists. split.
  - intros [x [Hx Heq]]. apply Z.eqb_eq in Heq. now subst.
  - intros H. exists r. split; [exact H | apply Z.eqb_refl].
Qed.

Lemma set_rate_zero_inv (d d' : clk_xclockdac_drvdata) (rate : Z) :
  xclockdac_set_rate d rate = Some (0, d') ->
  exists e, In e rate_table /\ out e = rate
            /\ shadow d' = reg_value e
            /\ device_reg (bus d') = reg_value e
            /\ xclockdac_recalc_rate d' = Some rate.
Proof.
  intros H.
  destruct (set_rate_cases d rate) as [[e [He [Hout Hs]]] | [_ Hs]];
    rewrite Hs in H; [| discriminate H].
  injection H as H.
  destruct (write_reg_outcome _ _ _ _ H) as [_ [Hsh Hdev]].
  pose proof (recalc_after_write d e He) as Hre. rewrite H in Hre.
  rewrite (table_code_byte e He) in *.
  exists e. subst rate. simpl in Hre.
  repeat split; try assumption. now apply Hdev.
Qed.

(** ** Commit and read-back *)

(** X1: a [set_rate] that answers 0 was asked for a frequency of the
    table, and afterwards the chip's register and the cache both hold that
    entry's code and the read-back reports the rate that was asked for. *)
Theorem set_rate_success_coherent
        (d d' : clk_xclockdac_drvdata) (rate : Z) :
  xclockdac_set_rate d rate = Some (0, d') ->
  exists e, In e rate_table /\ out e = rate
            /\ shadow d' = reg_value e
            /\ device_reg (bus d') = reg_value e
            /\ xclockdac_recalc_rate d' = Some rate.
Proof. apply set_rate_zero_inv. Qed.

Lemma set_rate_success_coherent_witness :
  exists e, In e rate_table /\ out e = 48000
            /\ shadow (mk_drvdata (mk_regmap 0x0B []) 0x0B) = reg_value e
            /\ device_reg (bus (mk_drvdata (mk_regmap 0x0B []) 0x0B))
               = reg_value e
            /\ xclockdac_recalc_rate (mk_drvdata (mk_regmap 0x0B []) 0x0B)
               = Some 48000.
Proof.
  exact (set_rate_success_coherent
           Fixtures.clk_44100 (mk_drvdata (mk_regmap 0x0B []) 0x0B) 48000
           eq_refl).
Defined.



(** X3: the read-back looks only at the low byte of the cached
    [unsigned int]: two caches that agree modulo 256 report the same rate,
    and the report is always 0 or a frequency of the table. *)
Theorem recalc_rate_low_byte (b : regmap) (s k : Z) :
  xclockdac_recalc_rate (mk_drvdata b (s + 256 * k))
  = xclockdac_recalc_rate (mk_drvdata b s)
  /\ exists r, xclockdac_recalc_rate (mk_drvdata b s) = Some r
               /\ (r = 0 \/ In r supported_rates).
Proof.
  split.
  - unfold xclockdac_recalc_rate, to_u8. cbn [shadow].
    replace (s + 256 * k) with (s + k * 2 ^ 8) by lia.
    now rewrite Z_mod_plus_full.
  - unfold xclockdac_recalc_rate.
    set (v := to_u8 (shadow (mk_drvdata b s))).
    destruct (in_dec Z.eq_dec v (map reg_value rate_table)) as [Hin | Hn].
    + apply in_map_iff in Hin. destruct Hin as [e [<- He]].
      exists (out e). rewrite (recalc_rate_scan_hit e He).
      split; [reflexivity | right; now apply in_map].
    + exists 0. split; [| now left].
      now apply recalc_rate_scan_miss.
Qed.

(** X4: after any sequence of [set_rate] calls the read-back reports the
    last requested rate that is a frequency of the table; requests for
    other rates leave no trace, and bus failures do not change the
    report. *)
Theorem commit_all_reports_last_supported (rates : list Z) :
  forall d : clk_xclockdac_drvdata,
  exists d',
    commit_all d rates = Some d'
    /\ xclockdac_recalc_rate d'
       = reported_after rates (xclockdac_recalc_rate d).
Proof.
  induction rates as [| r rest IH]; intros d; simpl.
  - now exists d.
  - destruct (set_rate_cases d r) as [[e [He [Hout Hs]]] | [Hn Hs]];
      rewrite Hs.
    + pose proof (recalc_after_write d e He) as Hre.
      destruct (xclockdac_write_reg d (reg_value e)) as [ret d1].
      simpl in Hre. destruct (IH d1) as [d' [Hc Hr]].
      exists d'. split; [exact Hc |].
      rewrite Hr, Hre, Hout.
      assert (Hsup : is_supported r = true).
      { apply is_supported_spec. rewrite <- Hout. now apply in_map. }
      now rewrite Hsup.
    + destruct (IH d) as [d' [Hc Hr]].
      exists d'. split; [exact Hc |].
      rewrite Hr.
      destruct (is_supported r) eqn:Hsup; [| reflexivity].
      apply is_supported_spec in Hsup. contradiction.
Qed.

(** ** Rounding *)

(** X5: [xclockdac_round_rate] is the step function whose steps sit at the
    midpoints 16537, 33075, 46050, 68100, 92100, 136200 and 184200. *)
Theorem round_rate_is_threshold_table (a : abi) (rate : Z) :
  xclockdac_round_rate a rate = Some (round_rate_thresholds rate).
Proof. apply round_rate_piecewise. Qed.

(** X6: rounding is monotone: a larger request is never rounded to a lower
    frequency than a smaller one. *)
Theorem round_rate_monotone (a : abi) (r1 r2 f1 f2 : Z) :
  r1 <= r2 ->
  xclockdac_round_rate a r1 = Some f1 ->
  xclockdac_round_rate a r2 = Some f2 ->
  f1 <= f2.
Proof.
  intros Hle H1 H2. rewrite round_rate_piecewise in H1, H2.
  injection H1 as <-. injection H2 as <-.
  unfold round_rate_thresholds. split_comparisons.
Qed.

Lemma round_rate_monotone_witness :
  16536 <= 16537
  /\ xclockdac_round_rate LP64 16536 = Some 11025
  /\ xclockdac_round_rate LP64 16537 = Some 22050
  /\ 11025 <= 22050.
Proof.
  assert (Hle : 16536 <= 16537) by discriminate.
  split; [exact Hle |]. split; [reflexivity |]. split; [reflexivity |].
  exact (round_rate_monotone LP64 16536 16537 11025 22050 Hle
                             eq_refl eq_refl).
Defined.

(** X7: the rounded rate is a nearest table frequency for every request
    but one: no table frequency lies closer to the request, except at
    16537, the floor midpoint of the odd gap 11025..22050, where the
    result 22050 is 1 Hz farther than 11025. *)
Theorem round_rate_nearest (a : abi) (rate r f : Z) :
  xclockdac_round_rate a rate = Some r ->
  In f supported_rates ->
  Z.abs (r - rate) <= Z.abs (f - rate) + (if rate =? 16537 then 1 else 0).
Proof.
  intros Hr Hf. rewrite round_rate_piecewise in Hr. injection Hr as <-.
  destruct (Z.eqb_spec rate 16537) as [-> | Hne].
  - simpl in Hf. unfold round_rate_thresholds. simpl.
    repeat (destruct Hf as [Hf | Hf]; [subst f; lia |]). contradiction Hf.
  - simpl in Hf. unfold round_rate_thresholds.
    repeat (destruct Hf as [Hf | Hf]; [subst f; split_comparisons |]).
    contradiction Hf.
Qed.

Lemma round_rate_nearest_witness :
  Z.abs (48000 - 47000) <= Z.abs (44100 - 47000) + 0
  /\ Z.abs (22050 - 16537) <= Z.abs (11025 - 16537) + 1.
Proof.
  assert (Hin1 : In 44100 supported_rates) by (simpl; tauto).
  assert (Hin2 : In 11025 supported_rates) by (simpl; tauto).
  split.
  - exact (round_rate_nearest LP64 47000 48000 44100 eq_refl Hin1).
  - exact (round_rate_nearest LP64 16537 22050 11025 eq_refl Hin2).
Defined.


(** ** The probe of the clock driver *)

Lemma i2c_probe_attached_inv (h : i2c_host) :
  err_ptr_ok (devm_clk_get h) ->
  err_ptr_ok (devm_regmap_init_i2c h) ->
  err_ptr_ok (devm_clk_register h) ->
  attached (xclockdac_i2c_probe h) = true ->
  devm_kzalloc h = true
  /\ IS_ERR (devm_clk_get h) = false
  /\ IS_ERR (devm_clk_register h) = false
  /\ of_clk_add_provider h = 0
  /\ exists m r val m' d',
      devm_regmap_init_i2c h = PTR m
      /\ regmap_read m SMBUS_DAC_SET = (r, val, m')
      /\ 0 <= r
      /\ 0 <= val < 2 ^ 8
      /\ clk_set_rate h (mk_drvdata m' val) DEFAULT_RATE = Some (0, d')
      /\ xclockdac_i2c_probe h = Some (0, Some d').
Proof.
  unfold xclockdac_i2c_probe. intros Ok1 Ok2 Ok3.
  destruct (devm_kzalloc h); simpl; [| discriminate].
  destruct (devm_clk_get h) as [u1 | e1]; simpl in *.
  2:{ destruct (Z.eqb_spec e1 0); [lia | discriminate]. }
  destruct (devm_regmap_init_i2c h) as [m | e2]; simpl in *.
  2:{ destruct (Z.eqb_spec e2 0); [lia | discriminate]. }
  destruct (regmap_read m SMBUS_DAC_SET) as [[r val] m'] eqn:Hr.
  destruct (Z.ltb_spec r 0) as [Hneg | Hpos].
  { simpl. destruct (Z.eqb_spec r 0); [lia | discriminate]. }
  destruct (devm_clk_register h) as [u3 | e3]; simpl in *.
  2:{ destruct (Z.eqb_spec e3 0); [lia | discriminate]. }
  destruct (Z.eqb_spec (of_clk_add_provider h) 0) as [Hp | Hp]; simpl.
  2:{ destruct (Z.eqb_spec (of_clk_add_provider h) 0);
        [contradiction | discriminate]. }
  destruct (clk_set_rate h (mk_drvdata m' val) DEFAULT_RATE)
    as [[ret d'] |] eqn:Hs; [| discriminate].
  destruct (Z.eqb_spec ret 0) as [-> | Hret]; simpl; [| discriminate].
  intros _. repeat split; try assumption.
  exists m, r, val, m', d'. repeat split; try assumption;
    apply (regmap_read_byte _ _ _ _ _ Hr).
Qed.

(** X9: the clock driver's probe attaches only if every step succeeded:
    allocation, clock lookup, regmap creation, the read-back, clock and
    provider registration, and the default rate, which is applied to a
    cache holding the byte just read. *)
Theorem i2c_probe_attached_only_if (h : i2c_host) :
  err_ptr_ok (devm_clk_get h) ->
  err_ptr_ok (devm_regmap_init_i2c h) ->
  err_ptr_ok (devm_clk_register h) ->
  attached (xclockdac_i2c_probe h) = true ->
  devm_kzalloc h = true
  /\ IS_ERR (devm_clk_get h) = false
  /\ IS_ERR (devm_clk_register h) = false
  /\ of_clk_add_provider h = 0
  /\ exists m r val m' d',
      devm_regmap_init_i2c h = PTR m
      /\ regmap_read m SMBUS_DAC_SET = (r, val, m')
      /\ 0 <= r
      /\ 0 <= val < 2 ^ 8
      /\ clk_set_rate h (mk_drvdata m' val) DEFAULT_RATE = Some (0, d')
      /\ xclockdac_i2c_probe h = Some (0, Some d').
Proof. apply i2c_probe_attached_inv. Qed.

Lemma i2c_probe_attached_only_if_witness :
  attached (xclockdac_i2c_probe Hosts.i2c_host_healthy) = true
  /\ exists m r val m' d',
      devm_regmap_init_i2c Hosts.i2c_host_healthy = PTR m
      /\ regmap_read m SMBUS_DAC_SET = (r, val, m')
      /\ 0 <= r
      /\ 0 <= val < 2 ^ 8
      /\ clk_set_rate Hosts.i2c_host_healthy (mk_drvdata m' val) DEFAULT_RATE
         = Some (0, d')
      /\ xclockdac_i2c_probe Hosts.i2c_host_healthy = Some (0, Some d').
Proof.
  split; [reflexivity |].
  exact (proj2 (proj2 (proj2 (proj2
           (i2c_probe_attached_only_if Hosts.i2c_host_healthy I I I
                                       eq_refl))))).
Defined.

(** X10: when the framework's [clk_set_rate] hands the rate to the
    driver's own [set_rate], a probe that attaches leaves the default rate
    in force whatever the chip held before: cache and chip hold the code of
    44100 Hz and the read-back reports 44100. *)
Theorem i2c_probe_default_rate_in_force (h : i2c_host) :
  err_ptr_ok (devm_clk_get h) ->
  err_ptr_ok (devm_regmap_init_i2c h) ->
  err_ptr_ok (devm_clk_register h) ->
  clk_set_rate h = clk_set_rate_ops clk_xclockdac_rate_ops ->
  attached (xclockdac_i2c_probe h) = true ->
  exists d,
    xclockdac_i2c_probe h = Some (0, Some d)
    /\ shadow d = 0x03
    /\ device_reg (bus d) = 0x03
    /\ xclockdac_recalc_rate d = Some 44100.
Proof.
  intros Ok1 Ok2 Ok3 Hops Hatt.
  destruct (i2c_probe_attached_inv h Ok1 Ok2 Ok3 Hatt)
    as [_ [_ [_ [_ [m [r [val [m' [d' [_ [_ [_ [_ [Hs Hp]]]]]]]]]]]]]].
  rewrite Hops in Hs. unfold clk_set_rate_ops in Hs. simpl in Hs.
  destruct (set_rate_zero_inv _ _ _ Hs) as [e [He [Hout [Hsh [Hdev Hre]]]]].
  assert (Hcode : reg_value e = 0x03).
  { table_cases He; simpl in Hout; try discriminate Hout. reflexivity. }
  exists d'. rewrite <- Hcode. auto.
Qed.

Lemma i2c_probe_default_rate_in_force_witness :
  exists d,
    xclockdac_i2c_probe Hosts.i2c_host_healthy = Some (0, Some d)
    /\ shadow d = 0x03
    /\ device_reg (bus d) = 0x03
    /\ xclockdac_recalc_rate d = Some 44100.
Proof.
  exact (i2c_probe_default_rate_in_force Hosts.i2c_host_healthy I I I
                                         eq_refl eq_refl).
Defined.

(** ** The machine driver *)

Lemma to_int_small (z : Z) :
  0 <= z < 2 ^ 31 -> SndRpiXclockdac.to_int z = z.
Proof.
  intros Hz. unfold SndRpiXclockdac.to_int.
  rewrite Z.mod_small by lia.
  destruct (Z.ltb_spec z (2 ^ 31)); lia.
Qed.

Lemma machine_rates_are_table_rates :
  SndRpiXclockdac.xclockdac_rates = supported_rates.
Proof. reflexivity. Qed.

(** X11: the machine driver's [hw_params] never reports a failure: its
    return code is 0 whatever [clk_set_rate] answered, the device-tree
    links are untouched, and with an error pointer for a clock it changes
    nothing at all. *)
Theorem machine_hw_params_always_zero
        (a : abi) (clk : Type) (h : SndRpiXclockdac.platform_host clk)
        (st st' : SndRpiXclockdac.xclockdac_drv_data clk)
        (params : snd_pcm_hw_params) (ret : Z) :
  SndRpiXclockdac.snd_rpi_xclockdac_hw_params a h st params
  = Some (ret, st') ->
  ret = 0
  /\ SndRpiXclockdac.cpus_of_node st' = SndRpiXclockdac.cpus_of_node st
  /\ SndRpiXclockdac.platforms_of_node st'
     = SndRpiXclockdac.platforms_of_node st
  /\ (IS_ERR (SndRpiXclockdac.sclk st) = true -> st' = st)
  /\ (IS_ERR (SndRpiXclockdac.sclk st) = false ->
      IS_ERR (SndRpiXclockdac.sclk st') = false).
Proof.
  unfold SndRpiXclockdac.snd_rpi_xclockdac_hw_params,
    SndRpiXclockdac.snd_rpi_xclockdac_set_sclk.
  destruct (SndRpiXclockdac.sclk st) as [c | e] eqn:Hc.
  - destruct (SndRpiXclockdac.clk_set_rate h c _) as [[r c'] |];
      [| discriminate].
    intros H. injection H as <- <-. simpl.
    repeat split; intros; discriminate.
  - intros H. injection H as <- <-. simpl. rewrite Hc. auto.
Qed.

Lemma machine_hw_params_always_zero_witness :
  SndRpiXclockdac.snd_rpi_xclockdac_hw_params
    LP64 Hosts.platform_host_healthy
    (SndRpiXclockdac.mk_drv_data
       (PTR (mk_drvdata (mk_regmap 0x03 [- EIO]) 0x03)) (Some 1) (Some 1))
    (mk_hw_params 45000 16)
  = Some (0, SndRpiXclockdac.mk_drv_data
               (PTR (mk_drvdata (mk_regmap 0x03 [- EIO]) 0x03))
               (Some 1) (Some 1))
  /\ xclockdac_set_rate (mk_drvdata (mk_regmap 0x03 [- EIO]) 0x03) 45000
     = Some (- EINVAL, mk_drvdata (mk_regmap 0x03 [- EIO]) 0x03)
  /\ 0 = 0.
Proof.
  split; [reflexivity |]. split; [reflexivity |].
  exact (proj1 (machine_hw_params_always_zero
                  LP64 _ Hosts.platform_host_healthy
                  (SndRpiXclockdac.mk_drv_data
                     (PTR (mk_drvdata (mk_regmap 0x03 [- EIO]) 0x03))
                     (Some 1) (Some 1))
                  (SndRpiXclockdac.mk_drv_data
                     (PTR (mk_drvdata (mk_regmap 0x03 [- EIO]) 0x03))
                     (Some 1) (Some 1))
                  (mk_hw_params 45000 16) 0 eq_refl)).
Defined.

(** X12: every rate of the machine driver's constraint list reaches the
    clock unchanged and passes its exact-match check: after [hw_params]
    the clock's read-back reports the negotiated rate. *)
Theorem negotiated_rate_reaches_clock
        (a : abi) (h : SndRpiXclockdac.platform_host clk_xclockdac_drvdata)
        (d : clk_xclockdac_drvdata) (n1 n2 : option Z) (r w : Z) :
  SndRpiXclockdac.clk_set_rate h = clk_set_rate_ops clk_xclockdac_rate_ops ->
  In r SndRpiXclockdac.xclockdac_rates ->
  exists d',
    SndRpiXclockdac.snd_rpi_xclockdac_hw_params
      a h (SndRpiXclockdac.mk_drv_data (PTR d) n1 n2) (mk_hw_params r w)
    = Some (0, SndRpiXclockdac.mk_drv_data (PTR d') n1 n2)
    /\ xclockdac_recalc_rate d' = Some r.
Proof.
  intros Hops Hin. rewrite machine_rates_are_table_rates in Hin.
  apply in_map_iff in Hin. destruct Hin as [e [<- He]].
  pose proof rate_table_bounds as HB. rewrite Forall_forall in HB.
  destruct (HB e He) as [Hout _].
  unfold SndRpiXclockdac.snd_rpi_xclockdac_hw_params,
    SndRpiXclockdac.snd_rpi_xclockdac_set_sclk. simpl.
  rewrite to_int_small, to_ulong_small by lia.
  rewrite Hops. unfold clk_set_rate_ops. simpl.
  rewrite (set_rate_exact d e He).
  pose proof (recalc_after_write d e He) as Hre.
  destruct (xclockdac_write_reg d (reg_value e)) as [ret d'].
  exists d'. split; [reflexivity | exact Hre].
Qed.

Lemma negotiated_rate_reaches_clock_witness :
  exists d',
    SndRpiXclockdac.snd_rpi_xclockdac_hw_params
      ILP32 Hosts.platform_host_healthy
      (SndRpiXclockdac.mk_drv_data (PTR Fixtures.clk_44100) None None)
      (mk_hw_params 96000 16)
    = Some (0, SndRpiXclockdac.mk_drv_data (PTR d') None None)
    /\ xclockdac_recalc_rate d' = Some 96000.
Proof.
  assert (Hin : In 96000 SndRpiXclockdac.xclockdac_rates).
  { simpl. tauto. }
  exact (negotiated_rate_reaches_clock
           ILP32 Hosts.platform_host_healthy Fixtures.clk_44100 None None
           96000 16 eq_refl Hin).
Defined.

(** X13: the machine driver's probe returns 0 only with a device-tree
    node, a resolved "i2s-controller" phandle, a registered card and a
    valid clock; it then leaves both DAI link nodes on the I2S controller
    and a valid clock handle in its driver data, after one call of
    [clk_set_rate] with the default rate. *)
Theorem machine_probe_success_state
        (clk : Type) (h : SndRpiXclockdac.platform_host clk)
        (st st' : SndRpiXclockdac.xclockdac_drv_data clk) :
  SndRpiXclockdac.snd_rpi_xclockdac_probe h st = Some (0, st') ->
  SndRpiXclockdac.of_node h = true
  /\ SndRpiXclockdac.devm_snd_soc_register_card h = 0
  /\ exists i2s c r c',
      SndRpiXclockdac.of_parse_phandle h = Some i2s
      /\ SndRpiXclockdac.devm_clk_get h = PTR c
      /\ SndRpiXclockdac.clk_set_rate h c 44100 = Some (r, c')
      /\ st' = SndRpiXclockdac.mk_drv_data (PTR c') (Some i2s) (Some i2s).
Proof.
  unfold SndRpiXclockdac.snd_rpi_xclockdac_probe,
    SndRpiXclockdac.probe_of_node.
  set (card := SndRpiXclockdac.devm_snd_soc_register_card h).
  assert (Hcard : forall (x : SndRpiXclockdac.xclockdac_drv_data clk)
                         (y : option (Z * SndRpiXclockdac.xclockdac_drv_data clk)),
             card <> 0 ->
             (if negb (card =? 0) && negb (card =? - EPROBE_DEFER)
              then Some (card, x)
              else if card =? - EPROBE_DEFER then Some (card, x) else y)
             = Some (0, st') -> False).
  { intros x y Hne.
    destruct (card =? 0) eqn:E0; [apply Z.eqb_eq in E0; contradiction |].
    destruct (card =? - EPROBE_DEFER); cbn [negb andb];
      intros H; injection H as H _; contradiction. }
  destruct (SndRpiXclockdac.of_node h) eqn:Hn.
  - destruct (SndRpiXclockdac.of_parse_phandle h) as [i2s |] eqn:Hp;
      [| discriminate].
    destruct (Z.eq_dec card 0) as [Hr | Hr].
    + rewrite Hr. cbn [Z.eqb negb andb].
      destruct (SndRpiXclockdac.devm_clk_get h) as [c | e] eqn:Hc;
        [| discriminate].
      change SndRpiXclockdac.DEFAULT_RATE with 44100.
      destruct (SndRpiXclockdac.clk_set_rate h c 44100) as [[r c'] |] eqn:Hs;
        [| discriminate].
      intros H. injection H as <-.
      repeat split. exists i2s, c, r, c'. auto.
    + intros H. exfalso. revert H. cbn [negb]. now apply Hcard.
  - destruct (Z.eq_dec card 0) as [Hr | Hr].
    + rewrite Hr. cbn [Z.eqb negb andb]. discriminate.
    + intros H. exfalso. revert H. cbn [negb]. now apply Hcard.
Qed.

Lemma machine_probe_success_state_witness :
  SndRpiXclockdac.of_node Hosts.platform_host_healthy = true
  /\ SndRpiXclockdac.devm_snd_soc_register_card Hosts.platform_host_healthy
     = 0
  /\ exists i2s c r c',
      SndRpiXclockdac.of_parse_phandle Hosts.platform_host_healthy
      = Some i2s
      /\ SndRpiXclockdac.devm_clk_get Hosts.platform_host_healthy = PTR c
      /\ SndRpiXclockdac.clk_set_rate Hosts.platform_host_healthy c 44100
         = Some (r, c')
      /\ SndRpiXclockdac.mk_drv_data
           (PTR (mk_drvdata (mk_regmap 0x03 []) 0x03)) (Some 1) (Some 1)
         = SndRpiXclockdac.mk_drv_data (PTR c') (Some i2s) (Some i2s).
Proof.
  exact (machine_probe_success_state
           _ Hosts.platform_host_healthy Fixtures.drv_data_zero
           (SndRpiXclockdac.mk_drv_data
              (PTR (mk_drvdata (mk_regmap 0x03 []) 0x03)) (Some 1) (Some 1))
           eq_refl).
Defined.

(** X14: a platform device without a device-tree node is never attached:
    the card is registered all the same, and the probe then answers the
    registration's own error or, if that succeeded, [-ENODEV]; the driver
    data is left as it was. *)
Theorem machine_probe_without_of_node
        (clk : Type) (h : SndRpiXclockdac.platform_host clk)
        (st : SndRpiXclockdac.xclockdac_drv_data clk) :
  SndRpiXclockdac.of_node h = false ->
  exists ret,
    SndRpiXclockdac.snd_rpi_xclockdac_probe h st = Some (ret, st)
    /\ ret <> 0
    /\ ret = (if SndRpiXclockdac.devm_snd_soc_register_card h =? 0
              then - ENODEV
              else SndRpiXclockdac.devm_snd_soc_register_card h).
Proof.
  intros Hn. unfold SndRpiXclockdac.snd_rpi_xclockdac_probe,
    SndRpiXclockdac.probe_of_node. rewrite Hn.
  set (card := SndRpiXclockdac.devm_snd_soc_register_card h).
  destruct (Z.eqb_spec card 0) as [Hr | Hr].
  - rewrite Hr. cbn [Z.eqb negb andb].
    exists (- ENODEV). repeat split. discriminate.
  - exists card.
    destruct (card =? - EPROBE_DEFER); cbn [negb andb]; auto.
Qed.

Lemma machine_probe_without_of_node_witness :
  exists ret,
    SndRpiXclockdac.snd_rpi_xclockdac_probe
      Hosts.platform_host_no_of_node Fixtures.drv_data_zero
    = Some (ret, Fixtures.drv_data_zero)
    /\ ret <> 0
    /\ ret = - ENODEV.
Proof.
  exact (machine_probe_without_of_node
           _ Hosts.platform_host_no_of_node Fixtures.drv_data_zero eq_refl).
Defined.

(** X15: whenever the clock lookup fails, with whatever error, the probe
    answers [-ENODEV] and stores the error pointer [-ENOENT]; every later
    [hw_params] then returns 0 without calling [clk_set_rate] and leaves
    the driver data alone. *)
Theorem machine_probe_clk_lookup_failure
        (a : abi) (clk : Type) (h h' : SndRpiXclockdac.platform_host clk)
        (st : SndRpiXclockdac.xclockdac_drv_data clk)
        (i2s : Z) (params : snd_pcm_hw_params) :
  SndRpiXclockdac.of_node h = true ->
  SndRpiXclockdac.of_parse_phandle h = Some i2s ->
  SndRpiXclockdac.devm_snd_soc_register_card h = 0 ->
  IS_ERR (SndRpiXclockdac.devm_clk_get h) = true ->
  exists st',
    SndRpiXclockdac.snd_rpi_xclockdac_probe h st = Some (- ENODEV, st')
    /\ SndRpiXclockdac.sclk st' = ERR_PTR (- ENOENT)
    /\ SndRpiXclockdac.snd_rpi_xclockdac_hw_params a h' st' params
       = Some (0, st').
Proof.
  intros Hn Hp Hr Hc.
  unfold SndRpiXclockdac.snd_rpi_xclockdac_probe,
    SndRpiXclockdac.probe_of_node.
  rewrite Hn, Hp, Hr. simpl.
  destruct (SndRpiXclockdac.devm_clk_get h) as [c | e]; [discriminate |].
  eexists. repeat split.
Qed.

Lemma machine_probe_clk_lookup_failure_witness :
  exists st',
    SndRpiXclockdac.snd_rpi_xclockdac_probe
      Hosts.platform_host_no_clk Fixtures.drv_data_zero
    = Some (- ENODEV, st')
    /\ SndRpiXclockdac.sclk st' = ERR_PTR (- ENOENT)
    /\ SndRpiXclockdac.snd_rpi_xclockdac_hw_params
         LP64 Hosts.platform_host_healthy st' (mk_hw_params 48000 16)
       = Some (0, st').
Proof.
  exact (machine_probe_clk_lookup_failure
           LP64 _ Hosts.platform_host_no_clk Hosts.platform_host_healthy
           Fixtures.drv_data_zero 1 (mk_hw_params 48000 16)
           eq_refl eq_refl eq_refl eq_refl).
Defined.

(** ** Stream open *)

(** X16: the machine driver's and the codec's [startup] install the same
    list, so running both, in either order, restricts the rate exactly as
    one of them does; parameters other than the rate are not restricted,
    and both calls answer 0. *)
Theorem startups_compose (rt : snd_pcm_runtime) (r : Z) :
  let m := SndRpiXclockdac.snd_rpi_xclockdac_startup in
  let c := Tda1541a.tda1541a_startup in
  negotiable (snd (c (snd (m rt)))) SNDRV_PCM_HW_PARAM_RATE r
  = is_supported r && negotiable rt SNDRV_PCM_HW_PARAM_RATE r
  /\ negotiable (snd (m (snd (c rt)))) SNDRV_PCM_HW_PARAM_RATE r
     = is_supported r && negotiable rt SNDRV_PCM_HW_PARAM_RATE r
  /\ negotiable (snd (m rt)) SNDRV_PCM_HW_PARAM_RATE r
     = is_supported r && negotiable rt SNDRV_PCM_HW_PARAM_RATE r
  /\ (forall v : Z,
        negotiable (snd (c (snd (m rt)))) SNDRV_PCM_HW_PARAM_FORMAT v
        = negotiable rt SNDRV_PCM_HW_PARAM_FORMAT v
        /\ negotiable (snd (c (snd (m rt)))) SNDRV_PCM_HW_PARAM_CHANNELS v
           = negotiable rt SNDRV_PCM_HW_PARAM_CHANNELS v)
  /\ fst (m rt) = 0 /\ fst (c (snd (m rt))) = 0.
Proof.
  intros m c.
  assert (Hl1 : list_holds SndRpiXclockdac.xclockdac_constraints r
                = is_supported r) by reflexivity.
  assert (Hl2 : list_holds Tda1541a.dai_constraints r = is_supported r)
    by reflexivity.
  unfold m, c, SndRpiXclockdac.snd_rpi_xclockdac_startup,
    Tda1541a.tda1541a_startup, snd_pcm_hw_constraint_list, negotiable.
  cbn [snd fst hw_constraints forallb snd_pcm_hw_param_eqb].
  rewrite Hl1, Hl2.
  repeat split; try reflexivity;
    destruct (is_supported r); reflexivity.
Qed.

(** ** Failed read-back and the byte invariant *)

(** X17: when the read-back at probe time fails, the probe answers the
    transport's error, leaves the chip's register and the zeroed cache
    alone, and never applies the default rate: its outcome is the same
    whatever [clk_set_rate] would do. *)
Theorem i2c_probe_read_failure
        (h : i2c_host) (m : regmap)
        (f : clk_xclockdac_drvdata -> Z ->
             option (Z * clk_xclockdac_drvdata)) :
  devm_kzalloc h = true ->
  IS_ERR (devm_clk_get h) = false ->
  devm_regmap_init_i2c h = PTR m ->
  fst (fst (regmap_read m SMBUS_DAC_SET)) < 0 ->
  exists m',
    xclockdac_i2c_probe h
    = Some (fst (fst (regmap_read m SMBUS_DAC_SET)),
            Some (mk_drvdata m' 0))
    /\ device_reg m' = device_reg m
    /\ attached (xclockdac_i2c_probe h) = false
    /\ xclockdac_i2c_probe (with_clk_set_rate h f) = xclockdac_i2c_probe h.
Proof.
  intros Hk Hc Hm Hfail.
  unfold xclockdac_i2c_probe, with_clk_set_rate. simpl.
  rewrite Hk, Hc, Hm. simpl.
  unfold regmap_read in *. destruct (next_fault m) as [r rest].
  destruct (Z.ltb_spec r 0) as [Hr | Hr]; simpl in *; [| lia].
  destruct (Z.ltb_spec r 0); [| lia].
  exists (mk_regmap (device_reg m) rest). simpl.
  repeat split. destruct (Z.eqb_spec r 0); [lia | reflexivity].
Qed.

Lemma i2c_probe_read_failure_witness :
  exists m',
    xclockdac_i2c_probe i2c_host_read_fails
    = Some (- EIO, Some (mk_drvdata m' 0))
    /\ device_reg m' = 0x0B
    /\ attached (xclockdac_i2c_probe i2c_host_read_fails) = false
    /\ xclockdac_i2c_probe
         (with_clk_set_rate i2c_host_read_fails (fun d _ => Some (0, d)))
       = xclockdac_i2c_probe i2c_host_read_fails.
Proof.
  assert (Hlt : fst (fst (regmap_read (mk_regmap 0x0B [- EIO])
                                      SMBUS_DAC_SET)) < 0).
  { reflexivity. }
  exact (i2c_probe_read_failure
           i2c_host_read_fails (mk_regmap 0x0B [- EIO])
           (fun d _ => Some (0, d)) eq_refl eq_refl eq_refl Hlt).
Defined.

(** X18: the cached register value stays a byte: no sequence of
    [set_rate] calls, accepted or refused, with or without bus failures,
    takes a cache that fits 8 bits out of that range. *)
Theorem commit_all_keeps_byte (rates : list Z) :
  forall d d' : clk_xclockdac_drvdata,
    0 <= shadow d < 2 ^ 8 ->
    commit_all d rates = Some d' ->
    0 <= shadow d' < 2 ^ 8.
Proof.
  induction rates as [| r rest IH]; intros d d' Hb; simpl.
  - intros H. now injection H as <-.
  - destruct (xclockdac_set_rate d r) as [[ret d1] |] eqn:Hs;
      [| discriminate].
    apply IH. exact (set_rate_shadow_byte d d1 r ret Hb Hs).
Qed.

Lemma commit_all_keeps_byte_witness :
  0 <= shadow Fixtures.clk_44100_next_fails < 2 ^ 8
  /\ commit_all Fixtures.clk_44100_next_fails [48000; 45000; 96000]
     = Some (mk_drvdata (mk_regmap 0x0A []) 0x0A)
  /\ 0 <= shadow (mk_drvdata (mk_regmap 0x0A []) 0x0A) < 2 ^ 8.
Proof.
  assert (Hb : 0 <= shadow Fixtures.clk_44100_next_fails < 2 ^ 8).
  { simpl. lia. }
  split; [exact Hb |]. split; [reflexivity |].
  exact (commit_all_keeps_byte
           [48000; 45000; 96000] Fixtures.clk_44100_next_fails
           (mk_drvdata (mk_regmap 0x0A []) 0x0A) Hb eq_refl).
Defined.
